(** * Slurm cluster health manager

    A shallow embedding of the orchestration and recovery engine of the
    repository: the per-node check/reboot/recheck loop
    (node_health_check_runner.py), the fleet coordinator
    (health_manager/cluster_health_orchestrator.py), the GHR escalation
    submitter (ghr_payload_utils.py, ghr_submission_controller.py), the
    report (health_manager/report_generator.py) and the helpers for remote
    nodes (remote_node_utils.py).

    Python dictionaries are finite maps from strings to JSON-like values,
    Python ints are [Z], Python floats are IEEE binary64 numbers, exceptions
    are explicit results.  Everything the code obtains from outside (commands
    run on a node, files, the clock, the HTTP transport, the scheduling of
    worker threads) is an input of the model. *)

From Stdlib Require Import ZArith Lia List String Ascii Floats Permutation Sorted DecimalString.
From Stdlib Require DecimalPos DecimalZ.
From stdpp Require Import base gmap strings list.

Set Warnings "-register-all".
Local Open Scope string_scope.
Local Open Scope list_scope.
Local Open Scope Z_scope.

(** ** Python values and built-ins *)

Module Py.

Inductive value : Type :=
  | VNone
  | VBool (b : bool)
  | VInt (z : Z)
  | VFloat (f : float)
  | VStr (s : string)
  | VList (l : list value)
  | VDict (d : gmap string value).

Abbreviation dict := (gmap string value).

(** An exception with its class name; [str(e)] is the message. *)
Record exn := Exn { exn_class : string; exn_message : string }.

Inductive outcome (A : Type) : Type :=
  | Return (a : A)
  | Raise (e : exn).
Arguments Return {A} a.
Arguments Raise {A} e.

(** [d.get(k, dflt)] *)
Definition get (d : dict) (k : string) (dflt : value) : value :=
  default dflt (d !! k).

(** [d.setdefault(k, v)], as an update of [d] *)
Definition setdefault (k : string) (v : value) (d : dict) : dict :=
  match d !! k with
  | Some _ => d
  | None => <[k := v]> d
  end.

(** A list of strings as a Python list. *)
Definition strs (l : list string) : value := VList (VStr <$> l).

(** The items of a Python list (no other value reaches the uses below). *)
Definition items (v : value) : list value :=
  match v with
  | VList l => l
  | _ => []
  end.

(** The truth value of a list. *)
Definition nonempty {A} (l : list A) : bool :=
  match l with
  | [] => false
  | _ :: _ => true
  end.

(** The dictionary a value is; [{}] for anything else, which is what the
    [.get(k, {})] chains below fall back to. *)
Definition items_dict (v : value) : dict :=
  match v with
  | VDict d => d
  | _ => ∅
  end.

(** [a + b] on lists; for any other operands the TypeError (Python also adds
    two strings or two numbers, which never occur where this is used). *)
Definition add (a b : value) : outcome value :=
  match a, b with
  | VList x, VList y => Return (VList (x ++ y))
  | _, _ => Raise (Exn "TypeError" "unsupported operand type(s) for +")
  end.

(** [range(a, b)] *)
Definition range (a b : Z) : list Z :=
  (fun i : nat => a + Z.of_nat i) <$> seq 0 (Z.to_nat (b - a)).

(** [l[:n]], with Python's meaning of a negative bound. *)
Definition slice_to {A} (l : list A) (n : Z) : list A :=
  if 0 <=? n then take (Z.to_nat n) l
  else take (length l - Z.to_nat (- n))%nat l.

(** [str(i)] for an int. *)
Definition str_of_int (i : Z) : string := NilZero.string_of_int (Z.to_int i).

(** [all(l)] on booleans. *)
Definition all (l : list bool) : bool := forallb id l.

(** *** Strings (ASCII) *)

Definition is_space (c : ascii) : bool :=
  let n := nat_of_ascii c in
  ((9 <=? n) && (n <=? 13) || (28 <=? n) && (n <=? 32))%nat.

Definition is_digit (c : ascii) : bool :=
  let n := nat_of_ascii c in ((48 <=? n) && (n <=? 57))%nat.

Definition is_upper (c : ascii) : bool :=
  let n := nat_of_ascii c in ((65 <=? n) && (n <=? 90))%nat.

Definition is_lower (c : ascii) : bool :=
  let n := nat_of_ascii c in ((97 <=? n) && (n <=? 122))%nat.

(** [\w] of the [re] module, on ASCII. *)
Definition is_word (c : ascii) : bool :=
  is_digit c || is_upper c || is_lower c || Ascii.eqb c "_"%char.

Fixpoint map_chars (f : ascii -> ascii) (s : string) : string :=
  match s with
  | EmptyString => EmptyString
  | String c s' => String (f c) (map_chars f s')
  end.

Definition lower : string -> string :=
  map_chars (fun c => if is_upper c then ascii_of_nat (nat_of_ascii c + 32) else c).

Definition upper : string -> string :=
  map_chars (fun c => if is_lower c then ascii_of_nat (nat_of_ascii c - 32) else c).

Definition startswith (p s : string) : bool := String.prefix p s.

Definition endswith (p s : string) : bool :=
  let n := String.length s in
  let m := String.length p in
  (m <=? n)%nat && String.eqb (substring (n - m) m s) p.

(** [needle in hay] *)
Fixpoint contains (needle hay : string) : bool :=
  String.prefix needle hay ||
  match hay with
  | EmptyString => false
  | String _ hay' => contains needle hay'
  end.

Fixpoint lstrip (s : string) : string :=
  match s with
  | String c s' => if is_space c then lstrip s' else s
  | EmptyString => EmptyString
  end.

Fixpoint rstrip (s : string) : string :=
  match s with
  | EmptyString => EmptyString
  | String c s' =>
      match rstrip s' with
      | EmptyString => if is_space c then EmptyString else String c EmptyString
      | t => String c t
      end
  end.

Definition strip (s : string) : string := lstrip (rstrip s).

(** [s.split(":", 1)[1]]; [None] stands for the IndexError. *)
Fixpoint after_colon (s : string) : option string :=
  match s with
  | EmptyString => None
  | String c s' => if Ascii.eqb c ":"%char then Some s' else after_colon s'
  end.

Definition is_linebreak (c : ascii) : bool :=
  let n := nat_of_ascii c in
  ((10 <=? n) && (n <=? 13) || (28 <=? n) && (n <=? 30))%nat.

(** [s.splitlines()] for the ASCII line boundaries; CR LF is one boundary. *)
Fixpoint splitlines_from (cur : string) (s : string) : list string :=
  match s with
  | EmptyString => if String.eqb cur "" then [] else [cur]
  | String c s' =>
      if is_linebreak c then
        match c, s' with
        | "013"%char, String "010"%char s'' => cur :: splitlines_from "" s''
        | _, _ => cur :: splitlines_from "" s'
        end
      else splitlines_from (cur +:+ String c EmptyString) s'
  end.

Definition splitlines (s : string) : list string := splitlines_from "" s.

(** Decimal digits, with single underscores between them. *)
Fixpoint digits_value (acc : Z) (after_digit : bool) (s : string) : option Z :=
  match s with
  | EmptyString => if after_digit then Some acc else None
  | String c s' =>
      if is_digit c then
        digits_value (10 * acc + Z.of_nat (nat_of_ascii c - 48)) true s'
      else if Ascii.eqb c "_"%char && after_digit then digits_value acc false s'
      else None
  end.

(** [int(s)] for a string: blanks around, an optional sign, digits; [None]
    is the ValueError. *)
Definition int_of_str (s : string) : option Z :=
  match strip s with
  | String "-"%char ds => Z.opp <$> digits_value 0 false ds
  | String "+"%char ds => digits_value 0 false ds
  | ds => digits_value 0 false ds
  end.

(** [int(f)] for a float: the integer towards zero; [None] is the error
    raised for a NaN or an infinity. *)
Definition int_of_float (f : float) : option Z :=
  match Prim2SF f with
  | S754_zero _ => Some 0
  | S754_finite s m e =>
      let v := if 0 <=? e then Z.pos m * 2 ^ e else Z.pos m / 2 ^ (- e) in
      Some (if s then - v else v)
  | _ => None
  end.

(** [int(v)] for a JSON value; [None] is the exception. *)
Definition int_of (v : value) : option Z :=
  match v with
  | VInt z => Some z
  | VBool b => Some (if b then 1 else 0)
  | VFloat f => int_of_float f
  | VStr s => int_of_str s
  | _ => None
  end.

End Py.

(** ** node_health_check_runner.py: the probes and the per-node loop *)

Module Runner.
Import Py.

(** The constants taken from health_manager_config. *)
Record config := {
  NODE_NAME : string;
  TIMESTAMP : string;
  NODE_PREFIX : string;
  NODE_COUNT : Z;
  HEALTH_CHECK_VERSION : string;
  NCCL_BW_THRESHOLD : float;
  NCCL_MULTI_BW_THRESHOLD : float
}.

(** *** run_gpu_health_check *)

(** What running the NHC script did: [subprocess.run] raised TimeoutExpired,
    raised something else, or completed with a return code; [log] is the text
    of the log file, [None] when opening or reading it raises. *)
Inductive nhc_run :=
  | NhcTimeout
  | NhcFault
  | NhcExit (returncode : Z) (log : option string).

(** One match of [NHC\d{4}\b] at the head of [s]. *)
Definition nhc_code_at (s : string) : option string :=
  match s with
  | String "N" (String "H" (String "C"
      (String d1 (String d2 (String d3 (String d4 rest)))))) =>
      if is_digit d1 && is_digit d2 && is_digit d3 && is_digit d4
         && match rest with
            | EmptyString => true
            | String c _ => negb (is_word c)
            end
      then Some (String "N" (String "H" (String "C"
                  (String d1 (String d2 (String d3 (String d4 EmptyString)))))))
      else None
  | _ => None
  end.

(** [re.findall(r"\b(NHC\d{4})\b", txt)]; [prev_word] tells whether the
    character before the current position is a word character. *)
Fixpoint findall_from (prev_word : bool) (s : string) : list string :=
  match s with
  | EmptyString => []
  | String c s' =>
      match (if prev_word then None else nhc_code_at s) with
      | Some code => code :: findall_from (is_word c) s'
      | None => findall_from (is_word c) s'
      end
  end.

Definition findall_nhc (txt : string) : list string := findall_from false txt.

(** The loop over [txt.splitlines()] that picks the host names. *)
Definition host_names (txt : string) : string * string :=
  foldl (fun names line =>
           if startswith "PHYSICAL HOST NAME:" line
           then (strip (default "" (after_colon line)), names.2)
           else if startswith "VM NAME:" line
           then (names.1, strip (default "" (after_colon line)))
           else names)
        ("", "") (splitlines txt).

Definition gpu_failure : bool * dict * string * string :=
  (false, <["log" := VStr ""]> (<["nhc_error_codes" := VList []]> ∅), "", "").

Definition run_gpu_health_check (cfg : config) (run : nhc_run)
  : bool * dict * string * string :=
  if endswith "-scheduler" (NODE_NAME cfg) then
    (true, <["log" := VStr ""]> ∅, "", "")
  else
    match run with
    | NhcExit returncode log =>
        if negb (returncode =? 0) then gpu_failure
        else
          match log with
          | None => gpu_failure               (* except Exception *)
          | Some txt =>
              let nhc_error_codes := findall_nhc txt in
              let ok := negb (contains "FAIL" txt) && negb (contains "Error" txt) in
              let '(physical, vmname) := host_names txt in
              (ok,
               <["log" := VStr txt]>
                 (<["nhc_error_codes" := strs nhc_error_codes]> ∅),
               physical, vmname)
          end
    | NhcTimeout => gpu_failure               (* except TimeoutExpired *)
    | NhcFault => gpu_failure                 (* except Exception *)
    end.

(** *** run_nccl_test *)

(** [nvidia-smi -L]: raised, or printed these lines. *)
Inductive gpu_listing :=
  | ListingRaised
  | Listing (stdout_lines : list string).

(** The benchmark and its log: running it raised; reading the log raised; or
    the log was read and [bw] is the float in column 6 of the first line that
    starts with 4G ([None]: no such line, or no float there). *)
Inductive bench :=
  | BenchRaised
  | LogUnreadable
  | Measured (bw : option float).

Definition run_nccl_test (cfg : config) (gpus : gpu_listing) (b : bench)
  : option bool * option float * list string :=
  let nccl_error_codes : list string := [] in
  match gpus with
  | ListingRaised => (None, None, [])
  | Listing stdout_lines =>
      let gpu_count := length (remove_dups stdout_lines) in
      if (gpu_count =? 0)%nat then
        (Some true, Some 0%float, nccl_error_codes ++ ["NCCL1001"])
      else if (gpu_count <? 8)%nat then
        (None, None, nccl_error_codes ++ ["NCCL1002"])
      else
        match b with
        | BenchRaised =>
            (Some false, Some 0%float, nccl_error_codes ++ ["NCCL1003"])
        | _ =>
            let '(bandwidth, nccl_error_codes) :=
              match b with
              | Measured bw => (bw, nccl_error_codes)
              | _ => (None, nccl_error_codes ++ ["NCCL1004"])
              end in
            match bandwidth with
            | None =>
                (Some false, Some 0%float, nccl_error_codes ++ ["NCCL1005"])
            | Some bandwidth =>
                let passed := (NCCL_BW_THRESHOLD cfg <=? bandwidth)%float in
                let nccl_error_codes :=
                  if negb passed then nccl_error_codes ++ ["NCCL1006"]
                  else nccl_error_codes in
                (Some passed, Some bandwidth, nccl_error_codes)
            end
        end
  end.

(** *** run_nccl_multi_node_test *)

(** [ssh n "nvidia-smi -L | wc -l"] and [int(...)] of its output. *)
Inductive count_query :=
  | CountRaised
  | Count (gpu_count : Z).

(** The returned dictionary; [None] is the string "N/A". *)
Record multi_result := {
  nodes : list string;
  busbw : option float;
  passed : option bool;
  multi_error_codes : list string
}.

(** The loop over the nodes: the code of the first early return, if any. *)
Fixpoint check_gpu_counts (qs : list count_query) : option string :=
  match qs with
  | [] => None
  | CountRaised :: _ => Some "NCCL_MULTI1003"
  | Count gpu_count :: qs' =>
      if gpu_count <? 8 then Some "NCCL_MULTI1002" else check_gpu_counts qs'
  end.

Definition run_nccl_multi_node_test (cfg : config)
    (counts : string -> count_query) (b : bench) : multi_result :=
  let nodes :=
    (fun i => NODE_PREFIX cfg +:+ "-" +:+ str_of_int i) <$> range 1 (NODE_COUNT cfg + 1) in
  let multi_error_codes : list string := [] in
  if (length nodes <? 2)%nat then
    {| nodes := nodes; busbw := None; passed := None;
       multi_error_codes := multi_error_codes ++ ["NCCL_MULTI1001"] |}
  else
    match check_gpu_counts (counts <$> nodes) with
    | Some code =>
        {| nodes := nodes; busbw := None; passed := None;
           multi_error_codes := multi_error_codes ++ [code] |}
    | None =>
        match b with
        | BenchRaised =>
            {| nodes := nodes; busbw := None; passed := Some false;
               multi_error_codes := multi_error_codes ++ ["NCCL_MULTI1004"] |}
        | _ =>
            let '(busbw, multi_error_codes) :=
              match b with
              | Measured bw => (bw, multi_error_codes)
              | _ => (None, multi_error_codes ++ ["NCCL_MULTI1005"])
              end in
            match busbw with
            | None =>
                {| nodes := nodes; busbw := None; passed := Some false;
                   multi_error_codes := multi_error_codes ++ ["NCCL_MULTI1006"] |}
            | Some busbw =>
                let passed := (NCCL_MULTI_BW_THRESHOLD cfg <=? busbw)%float in
                {| nodes := nodes; busbw := Some busbw; passed := Some passed;
                   multi_error_codes :=
                     if negb passed then multi_error_codes ++ ["NCCL_MULTI1007"]
                     else multi_error_codes |}
            end
        end
    end.

(** *** main *)

(** A JSON file: missing, not loadable by [json.load], or holding a value. *)
Inductive file :=
  | NoFile
  | Corrupt
  | Json (v : value).

(** What one pass of the loop observes when it runs the three probes. *)
Record probe_inputs := {
  nhc : nhc_run;
  gpus : gpu_listing;
  single : bench;
  counts : string -> count_query;
  multi : bench
}.

(** The two environment variables [main] reads. *)
Record environ := {
  ENABLE_REBOOT_ON_FAILURE : option string;
  MAX_REBOOT_COUNT : option string
}.

(** Which [save_result] call wrote a result. *)
Inductive save_kind := Intermediate | Final.

(** The node's files: RESULT_FILE, /tmp/reboot_required, and the history of
    everything [save_result] wrote, oldest first. *)
Record state := {
  result_file : file;
  reboot_required : bool;
  saved : list (save_kind * dict)
}.

Definition save_result (k : save_kind) (res : dict) (st : state) : state :=
  {| result_file := Json (VDict res);
     reboot_required := reboot_required st;
     saved := saved st ++ [(k, res)] |}.

Definition touch_reboot_required (st : state) : state :=
  {| result_file := result_file st;
     reboot_required := true;
     saved := saved st |}.

(** How the process ends: it returns, an exception escapes, or (in the model
    only) the loop was cut short. *)
Inductive exit :=
  | Exited
  | Crashed (e : exn)
  | OutOfFuel.

(** [reboot_count = int(prev.get("reboot_count", 0))] inside [try], with
    [except Exception: reboot_count = 0]; a missing file leaves [current]. *)
Definition load_reboot_count (f : file) (current : Z) : Z :=
  match f with
  | NoFile => current
  | Corrupt => 0
  | Json (VDict prev) => default 0 (int_of (get prev "reboot_count" (VInt 0)))
  | Json _ => 0
  end.

Definition status_text (ok : option bool) : string :=
  match ok with
  | None => "Skip"
  | Some true => "Passed"
  | Some false => "Failed"
  end.

Definition float_or_none (f : option float) : value :=
  match f with
  | Some x => VFloat x
  | None => VNone
  end.

(** The body of the loop up to and including the [result] dictionary:
    returns [overall] and [result]. *)
Definition check_pass (cfg : config) (inp : probe_inputs) (reboot_count : Z)
  : bool * dict :=
  let '(gpu_ok, gpu_detail, physical, vmname) := run_gpu_health_check cfg (nhc inp) in
  let nhc_err_codes := get gpu_detail "nhc_error_codes" (VList []) in
  let '(nccl_ok, nccl_bw, nccl_err_codes) := run_nccl_test cfg (gpus inp) (single inp) in
  let nccl_err_codes := if nccl_ok is None then [] else nccl_err_codes in
  let multi := run_nccl_multi_node_test cfg (counts inp) (multi inp) in
  let multi_ok := passed multi in
  let multi_err_codes := if multi_ok is None then [] else multi_error_codes multi in
  let checks :=
    [gpu_ok] ++ (if nccl_ok is Some b then [b] else [])
             ++ (if multi_ok is Some b then [b] else []) in
  let overall := all checks in
  let error_codes :=
    VList (items nhc_err_codes ++ (VStr <$> nccl_err_codes) ++ (VStr <$> multi_err_codes)) in
  let result : dict :=
    <["node" := VStr (NODE_NAME cfg)]> (
    <["timestamp" := VStr (TIMESTAMP cfg)]> (
    <["gpu_check" := VBool gpu_ok]> (
    <["gpu_detail" := VDict gpu_detail]> (
    <["error_codes" := error_codes]> (
    <["nccl_status" := VStr (status_text nccl_ok)]> (
    <["nccl_bw" := float_or_none nccl_bw]> (
    <["nccl_multi_nodes" := strs (nodes multi)]> (
    <["nccl_multi_bw" := float_or_none (busbw multi)]> (
    <["multi_status" := VStr (status_text (passed multi))]> (
    <["reboot_count" := VInt reboot_count]> (
    <["initial_returncode" := VInt (if overall then 0 else 1)]> (
    <["final_returncode" := VInt 0]> (
    <["health_check_version" := VStr (HEALTH_CHECK_VERSION cfg)]> (
    <["physical_host_name" := VStr physical]> (
    <["vm_name" := VStr vmname]> ∅))))))))))))))) in
  (overall, result).

(** [while True:].  [probes i] is what pass number [i] observes and [imds] is
    what fetch_imds_resource_id does (it raises on any request error). *)
Fixpoint loop (cfg : config) (ENABLE : bool) (MAXR : Z) (imds : outcome string)
    (probes : nat -> probe_inputs) (fuel : nat) (iteration : nat)
    (reboot_count : Z) (st : state) : exit * state :=
  match fuel with
  | O => (OutOfFuel, st)
  | S fuel' =>
      let iteration := S iteration in
      let '(overall, result) := check_pass cfg (probes iteration) reboot_count in
      if negb overall && ENABLE && (reboot_count <? MAXR) then
        let st := touch_reboot_required st in
        let reboot_count := reboot_count + 1 in
        let st := save_result Intermediate (<["reboot_count" := VInt reboot_count]> result) st in
        loop cfg ENABLE MAXR imds probes fuel' iteration reboot_count st
      else
        let result := <["initial_returncode" := VInt 0]> result in
        let result := <["final_returncode" := VInt (if overall then 0 else 1)]> result in
        let result := <["reboot_count" := VInt reboot_count]> result in
        match imds with
        | Raise e => (Crashed e, st)
        | Return resource_id =>
            let result := <["impactedResourceId" := VStr resource_id]> result in
            (Exited, save_result Final result st)
        end
  end.

(** [os.environ.get("ENABLE_REBOOT_ON_FAILURE", "false").lower()
    in ("1", "true", "yes")] *)
Definition enabled (env : environ) : bool :=
  bool_decide (lower (default "false" (ENABLE_REBOOT_ON_FAILURE env))
               ∈ ["1"; "true"; "yes"]).

(** [main()].  [previous] is the file PREVIOUS_RESULT_PATH names ([NoFile]
    when the variable is empty or the file does not exist).  The optional NHC
    upgrade, which swallows its own exceptions, is left out.  The loop gets
    one step more than the number of reboots that are still allowed. *)
Definition main (cfg : config) (env : environ) (imds : outcome string)
    (probes : nat -> probe_inputs) (previous : file) (st : state) : exit * state :=
  let reboot_count := load_reboot_count (result_file st) 0 in
  let reboot_count := load_reboot_count previous reboot_count in
  let ENABLE := enabled env in
  match int_of_str (default "0" (MAX_REBOOT_COUNT env)) with
  | None => (Crashed (Exn "ValueError" "invalid literal for int()"), st)
  | Some MAXR =>
      loop cfg ENABLE MAXR imds probes
           (S (Z.to_nat (MAXR - reboot_count))) 0 reboot_count st
  end.

(** The reboots a run asked for: its intermediate saves. *)
Definition is_intermediate (k : save_kind) : bool :=
  match k with
  | Intermediate => true
  | Final => false
  end.

Definition reboot_requests (l : list (save_kind * dict)) : nat :=
  length (List.filter (fun kd => is_intermediate kd.1) l).

(** What a result saved by the loop looks like when the loop was entered
    with reboot count [lo] and may go up to [hi]. *)
Definition written_ok (lo hi : Z) (kd : save_kind * dict) : Prop :=
  kd.2 !! "initial_returncode" = Some (VInt (if is_intermediate kd.1 then 1 else 0)) /\
  (is_intermediate kd.1 = true -> kd.2 !! "final_returncode" = Some (VInt 0)) /\
  exists c, kd.2 !! "reboot_count" = Some (VInt c) /\ lo <= c <= hi.

End Runner.

(** ** health_manager/cluster_health_orchestrator.py: the fleet coordinator *)

Module Orchestrator.
Import Py.

Record config := {
  PREFIX : string;
  NODE_COUNT : Z;
  TIMESTAMP : string;
  MAX_PARALLEL : Z;
  MAX_REBOOT_COUNT : Z;
  RECHECK_INTERVAL_SECONDS : Z
}.

Definition get_nodes (cfg : config) : list string :=
  (fun i => PREFIX cfg +:+ "-" +:+ str_of_int i) <$> range 1 (NODE_COUNT cfg + 1).

(** What the commands of one worker do, per attempt number: the exit code of
    the check command ([None]: it ran into its 600 s timeout), the exit code
    of [test -f /tmp/reboot_required], whether [sudo reboot] and [rm -f]
    came back before their timeouts; and the result JSON found afterwards. *)
Record remote := {
  check_run : Z -> option Z;
  flag_test : Z -> Z;
  reboot_run : Z -> bool;
  cleanup_run : Z -> bool;
  result_json : Runner.file
}.

(** The commands a worker issues, in order. *)
Inductive command :=
  | RunCheck
  | TestFlag
  | Reboot
  | Sleep
  | WaitForSsh
  | RemoveFlag.

Definition is_reboot (c : command) : bool :=
  match c with
  | Reboot => true
  | _ => false
  end.

(** The number of [sudo reboot] commands among [l]. *)
Definition reboots (l : list command) : nat := length (List.filter is_reboot l).

Definition TimeoutExpired : exn := Exn "TimeoutExpired" "Command timed out".

(** [for attempt in range(1, MAX_REBOOT_COUNT + 2):], over the attempts that
    are left; [done] collects the commands issued so far. *)
Fixpoint attempts (cfg : config) (w : remote) (todo : list Z) (done : list command)
  : outcome unit * list command :=
  match todo with
  | [] => (Return tt, done)
  | attempt :: todo' =>
      match check_run w attempt with
      | None => (Raise TimeoutExpired, done ++ [RunCheck])
      | Some ret =>
          let done := done ++ [RunCheck; TestFlag] in
          if negb (flag_test w attempt =? 0) then (Return tt, done)
          else if MAX_REBOOT_COUNT cfg <? attempt then (Return tt, done)
          else
            let done := done ++ [Reboot] in
            if negb (reboot_run w attempt) then (Raise TimeoutExpired, done)
            else if RECHECK_INTERVAL_SECONDS cfg <? 0 then
              (Raise (Exn "ValueError" "sleep length must be non-negative"), done)
            else
              let done := done ++ [Sleep; WaitForSsh; RemoveFlag] in
              if negb (cleanup_run w attempt) then (Raise TimeoutExpired, done)
              else attempts cfg w todo' done
      end
  end.

Definition missing_json (cfg : config) (node : string) : dict :=
  <["node" := VStr node]> (
  <["timestamp" := VStr (TIMESTAMP cfg)]> (
  <["initial_returncode" := VInt 255]> (
  <["final_returncode" := VInt 255]> (
  <["reboot_count" := VInt 0]> (
  <["error" := VStr "remote JSON not found"]> ∅))))).

(** [run_check_on_node(node)], with the commands it issued. *)
Definition run_check_on_node (cfg : config) (node : string) (w : remote)
  : outcome (string * dict) * list command :=
  match attempts cfg w (range 1 (MAX_REBOOT_COUNT cfg + 2)) [] with
  | (Raise e, done) => (Raise e, done)
  | (Return _, done) =>
      match result_json w with
      | Runner.Json (VDict data) =>
          let data := setdefault "node" (VStr node) data in
          let data := setdefault "timestamp" (VStr (TIMESTAMP cfg)) data in
          let data := setdefault "initial_returncode" (VInt 255) data in
          let data := setdefault "final_returncode" (VInt 255) data in
          let data := setdefault "reboot_count" (VInt 0) data in
          (Return (node, data), done)
      | Runner.Json _ =>
          (Raise (Exn "AttributeError" "object has no attribute 'setdefault'"), done)
      | Runner.Corrupt =>
          (Raise (Exn "JSONDecodeError" "Expecting value"), done)
      | Runner.NoFile => (Return (node, missing_json cfg node), done)
      end
  end.

(** The fallback entry [main] appends when a future raises. *)
Definition fallback (cfg : config) (node : string) (e : exn) : dict :=
  <["node" := VStr node]> (
  <["timestamp" := VStr (TIMESTAMP cfg)]> (
  <["initial_returncode" := VInt 255]> (
  <["final_returncode" := VInt 255]> (
  <["reboot_count" := VInt 0]> (
  <["error" := VStr (exn_message e)]> ∅))))).

(** [as_completed]: each pending future is yielded once; which one comes
    next is decided by the timing of the threads, here [sched]: at step [t]
    the future at position [sched t] (modulo their number) among those still
    pending completes first. *)
Fixpoint drain {A} (sched : nat -> nat) (t : nat) (n : nat) (pending : list A) : list A :=
  match n with
  | O => []
  | S n' =>
      let i := (sched t mod length pending)%nat in
      match pending !! i with
      | Some fut => fut :: drain sched (S t) n' (delete i pending)
      | None => []
      end
  end.

Definition as_completed {A} (sched : nat -> nat) (futures : list A) : list A :=
  drain sched 0 (length futures) futures.

(** What the body of the [for fut in as_completed(futures)] loop appends. *)
Definition collect_one (cfg : config) (fut : outcome (string * dict) * string) : dict :=
  match fut with
  | (Return (_, data), _) => data
  | (Raise e, node) => fallback cfg node e
  end.

(** The [with ThreadPoolExecutor(...)] block of [main] for the node list
    [nodes]: the value of [results] after it.  [worlds i] is what the worker
    of the [i]-th submitted node meets. *)
Definition collect_results (cfg : config) (nodes : list string)
    (worlds : nat -> remote) (sched : nat -> nat) : outcome (list dict) :=
  if MAX_PARALLEL cfg <=? 0 then
    Raise (Exn "ValueError" "max_workers must be greater than 0")
  else
    let futures :=
      imap (fun i node => ((run_check_on_node cfg node (worlds i)).1, node)) nodes in
    Return (foldl (fun results fut => results ++ [collect_one cfg fut])
                  [] (as_completed sched futures)).

(** The entry that ends up in [results] for the [i]-th submitted node. *)
Definition node_result (cfg : config) (worlds : nat -> remote) (i : nat)
    (node : string) : dict :=
  collect_one cfg ((run_check_on_node cfg node (worlds i)).1, node).

(** A worker run that fails internally: an exception escapes it, or there
    is no result JSON. *)
Definition faulted (cfg : config) (node : string) (w : remote) : Prop :=
  (exists e, (run_check_on_node cfg node w).1 = Raise e) \/
  result_json w = Runner.NoFile.

(** The result JSON, when there is one and it has a "node" entry, names the
    node under whose name it is stored (the runner stores its own host name
    in the file named after that host). *)
Definition names_its_node (node : string) (f : Runner.file) : Prop :=
  match f with
  | Runner.Json (VDict data) =>
      data !! "node" = None \/ data !! "node" = Some (VStr node)
  | _ => True
  end.

(** How many of the attempts [todo] may still reboot. *)
Definition allowed (M : Z) (todo : list Z) : nat :=
  length (List.filter (fun attempt => attempt <=? M) todo).

(** [main()] up to the end of the collection.  The report and the archive
    that follow only read [results] (the report starts from [results[0]],
    so on an empty fleet it raises after the collection). *)
Definition main (cfg : config) (worlds : nat -> remote) (sched : nat -> nat)
  : outcome (list dict) :=
  collect_results cfg (get_nodes cfg) worlds sched.

End Orchestrator.

(** ** ghr_payload_utils.py and ghr_submission_controller.py: escalation *)

Module Ghr.
Import Py.

Record config := {
  ENABLE_GHR : bool;
  GHR_SKIP_HOURS : Z;
  GHR_IMPACT_CATEGORY : string;
  GHR_IMPACT_DESCRIPTION : string;
  GHR_ADDITIONAL : dict;
  GHR_MAX_NODES : Z;
  GHR_MAX_RETRIES : Z;
  GHR_RETRY_INTERVAL : Z;
  GHR_METHOD : string
}.

(** *** Time.  Instants are microseconds since the epoch, in UTC. *)

Definition second : Z := 1000000.
Definition hour : Z := 3600 * second.

(** [dt.replace(microsecond=0)] *)
Definition whole_seconds (t : Z) : Z := t - t mod second.

Definition pad (width : nat) (n : Z) : string :=
  let s := str_of_int n in
  string_of_list_ascii (repeat "0"%char (width - String.length s)) +:+ s.

(** Year, month and day of a day number counted from 1970-01-01. *)
Definition civil_from_days (days : Z) : Z * Z * Z :=
  let z := days + 719468 in
  let era := z / 146097 in
  let doe := z - era * 146097 in
  let yoe := (doe - doe / 1460 + doe / 36524 - doe / 146096) / 365 in
  let doy := doe - (365 * yoe + yoe / 4 - yoe / 100) in
  let mp := (5 * doy + 2) / 153 in
  let d := doy - (153 * mp + 2) / 5 + 1 in
  let m := if mp <? 10 then mp + 3 else mp - 9 in
  ((yoe + era * 400 + if m <=? 2 then 1 else 0), m, d).

(** [t.isoformat().replace('+00:00', 'Z')] for a whole second [t]. *)
Definition isoformat_z (t : Z) : string :=
  let s := t / second in
  let '(y, m, d) := civil_from_days (s / 86400) in
  let r := s mod 86400 in
  pad 4 y +:+ "-" +:+ pad 2 m +:+ "-" +:+ pad 2 d +:+ "T" +:+
  pad 2 (r / 3600) +:+ ":" +:+ pad 2 (r mod 3600 / 60) +:+ ":" +:+ pad 2 (r mod 60) +:+ "Z".

(** *** The durable log *)

(** What [datetime.fromisoformat] makes of the "timestamp" of a line: it
    raises, or gives a time without or with a UTC offset. *)
Inductive iso_time :=
  | NotIso
  | Naive
  | Aware (t : Z).

(** A line that [json.loads] turns into an object with a "timestamp":
    [status] is the text under "status" (empty when there is none). *)
Record log_entry := {
  timestamp : iso_time;
  status : string;
  requestId : string;
  nodes : list dict
}.

(** Any other line is malformed: indexing it raises. *)
Inductive log_line :=
  | Malformed
  | Entry (e : log_entry).

(** *** The outside world and the state of a run *)

(** [clock k] is the [k]-th reading of the clock, [transport k] what the
    [k]-th HTTP request does ([Raise]: a connection error, a timeout, or an
    error status turned into an exception by [raise_for_status]), and
    [timestamp_text t] is [str(t.timestamp())] without its dot. *)
Record world := {
  clock : nat -> Z;
  transport : nat -> outcome unit;
  timestamp_text : Z -> string
}.

(** What [logging] is asked to print. *)
Inductive message :=
  | GhrDisabled
  | SkippingRecentSuccess
  | NoFailureNodes
  | Trimming (count : nat)
  | AttemptSucceeded (attempt : Z)
  | AttemptFailed (attempt : Z) (e : exn)
  | ExceptionIn (func : string) (e : exn)
  | ProcessCompleted.

Inductive event :=
  | Logged (m : message)
  | Requested (method : string) (payload : dict)
  | Slept (seconds : Z)
  | Appended (e : log_entry).

(** Clock readings and requests made so far, the log file ([None]: it does
    not exist), and everything the run did, oldest first. *)
Record state := {
  reads : nat;
  calls : nat;
  log : option (list log_line);
  events : list event
}.

(** State and exceptions. *)
Definition M (A : Type) : Type := state -> outcome A * state.

Definition ret {A} (a : A) : M A := fun s => (Return a, s).

Definition raise {A} (e : exn) : M A := fun s => (Raise e, s).

Definition bind {A B} (m : M A) (k : A -> M B) : M B :=
  fun s =>
    match m s with
    | (Return a, s') => k a s'
    | (Raise e, s') => (Raise e, s')
    end.

Notation "'let!' x ':=' m 'in' k" := (bind m (fun x => k))
  (at level 10, x name, m at level 100, k at level 200).
Notation "m ;; k" := (bind m (fun _ => k))
  (at level 100, k at level 200, right associativity).

Definition lift {A} (o : outcome A) : M A := fun s => (o, s).

Definition emit (ev : event) : M unit :=
  fun s => (Return tt, {| reads := reads s; calls := calls s; log := log s;
                          events := events s ++ [ev] |}).

(** [datetime.now(timezone.utc)] *)
Definition now (w : world) : M Z :=
  fun s => (Return (clock w (reads s)),
            {| reads := S (reads s); calls := calls s; log := log s;
               events := events s |}).

(** [time.sleep(seconds)] *)
Definition sleep (seconds : Z) : M unit :=
  if seconds <? 0 then raise (Exn "ValueError" "sleep length must be non-negative")
  else emit (Slept seconds).

(** *** ghr_payload_utils.py *)

(** What is handed to [astimezone] as the zone: a [tzinfo] with its offset,
    or a [timedelta], which is no [tzinfo]. *)
Inductive zone_argument :=
  | Tzinfo (utcoffset : Z)
  | Timedelta (duration : Z).

(** The TypeError of [astimezone], with the text CPython gives it. *)
Definition not_a_tzinfo : exn :=
  Exn "TypeError"
      "tzinfo argument must be None or of a tzinfo subclass, not type 'datetime.timedelta'".

(** [dt.astimezone(tz)] for an aware [dt]: the same instant in the zone
    [tz]; anything but a [tzinfo] is refused. *)
Definition astimezone (t : Z) (tz : zone_argument) : outcome Z :=
  match tz with
  | Tzinfo _ => Return t
  | Timedelta _ => Raise not_a_tzinfo
  end.

(** [get_current_timestamps()].  The two texts it is to return name the
    same whole second, which stands for them here; but line 56 hands
    [astimezone] the [timedelta(hours=9)] itself, not a [timezone] made of
    it, so every call raises after it has read the clock. *)
Definition get_current_timestamps (w : world) : M Z :=
  let! t := now w in
  let now_utc := whole_seconds t in
  let! jst := lift (astimezone now_utc (Timedelta (9 * hour))) in
  ret now_utc.

(** The decorator: in the handler, get the timestamps, log the exception,
    raise it again.  An exception raised in the handler takes its place. *)
Definition log_and_reraise {A} (w : world) (name : string) (func : M A) : M A :=
  fun s =>
    match func s with
    | (Return a, s') => (Return a, s')
    | (Raise e, s') =>
        (get_current_timestamps w;;
         emit (Logged (ExceptionIn name e));;
         raise e) s'
    end.

Definition build_ghr_payload (w : world) (category description : string)
    (additional : dict) (nodes : list dict) (timestamp : string) : M dict :=
  log_and_reraise w "build_ghr_payload" (
    let properties : dict :=
      <["nodes" := VList (VDict <$> nodes)]> (
      <["timestamp" := VStr timestamp]> (
      additional ∪
      (<["category" := VStr category]> (
       <["description" := VStr description]> ∅)))) in
    let! t := now w in
    let properties := <["requestId" := VStr (timestamp_text w t)]> properties in
    ret (<["properties" := VDict properties]> (∅ : dict))).

Definition submit_ghr_request (w : world) (payload : dict) (method : string) : M unit :=
  log_and_reraise w "submit_ghr_request" (
    let method :=
      if bool_decide (upper method ∈ ["POST"; "PUT"]) then method else "POST" in
    fun s =>
      (transport w (calls s),
       {| reads := reads s; calls := S (calls s); log := log s;
          events := events s ++ [Requested method payload] |})).

(** Opening the log in append mode creates it when it is missing. *)
Definition append_line (l : log_line) : M unit :=
  fun s =>
    (Return tt,
     {| reads := reads s; calls := calls s;
        log := Some (default [] (log s) ++ [l]);
        events := events s |}).

(** The line is read back with the offset its Z suffix names (as
    [datetime.fromisoformat] does from Python 3.11 on). *)
Definition record_ghr_log (w : world) (status request_id : string) (nodes : list dict)
  : M unit :=
  log_and_reraise w "record_ghr_log" (
    let! utc := get_current_timestamps w in
    let entry := {| timestamp := Aware utc; status := status;
                    requestId := request_id; nodes := nodes |} in
    append_line (Entry entry);;
    emit (Appended entry)).

(** *** ghr_submission_controller.py *)

(** The loop of [has_recent_success] over the lines, newest first. *)
Fixpoint scan (cutoff : Z) (lines : list log_line) : bool :=
  match lines with
  | [] => false
  | Malformed :: lines' => scan cutoff lines'
  | Entry entry :: lines' =>
      match timestamp entry with
      | NotIso => scan cutoff lines'
      | Naive =>
          (* comparing with the aware cutoff raises when it is reached *)
          scan cutoff lines'
      | Aware ts =>
          if String.eqb (status entry) "success" && (cutoff <=? ts) then true
          else scan cutoff lines'
      end
  end.

(** The first and the last microsecond a [datetime] can hold: the years 1
    to 9999. *)
Definition datetime_min : Z := - 62135596800 * second.
Definition datetime_max : Z := 253402300800 * second - 1.

(** [t - timedelta(hours=hours)]; an OverflowError when the duration or the
    result is out of range. *)
Definition minus_hours (t hours : Z) : outcome Z :=
  let cutoff := t - hours * hour in
  if (datetime_min <=? cutoff) && (cutoff <=? datetime_max) then Return cutoff
  else Raise (Exn "OverflowError" "date value out of range").

Definition has_recent_success (w : world) (hours : Z) : M bool :=
  let! t := now w in
  let! cutoff := lift (minus_hours t hours) in
  fun s =>
    match log s with
    | None => (Return false, s)
    | Some lines => (Return (scan cutoff (reverse lines)), s)
    end.

(** The three lists of codes read from an entry, concatenated. *)
Definition entry_codes (entry : dict) : outcome value :=
  match add (get entry "nhc_error_codes" (VList []))
            (get entry "nccl_error_codes" (VList [])) with
  | Raise e => Raise e
  | Return c => add c (get entry "multi_error_codes" (VList []))
  end.

Definition failed_node (entry : dict) (codes : value) : dict :=
  <["node" := get entry "node" VNone]> (<["errors" := codes]> ∅).

(** [for entry in all_results:] *)
Fixpoint extract_failed (all_results : list dict) (failed_nodes : list dict)
  : outcome (list dict) :=
  match all_results with
  | [] => Return failed_nodes
  | entry :: rest =>
      match entry_codes entry with
      | Raise e => Raise e
      | Return codes =>
          if nonempty (items codes)
          then extract_failed rest (failed_nodes ++ [failed_node entry codes])
          else extract_failed rest failed_nodes
      end
  end.

Definition payload_request_id (payload : dict) : string :=
  match get (items_dict (get payload "properties" (VDict ∅))) "requestId" (VStr "") with
  | VStr s => s
  | _ => ""
  end.

(** One turn of the retry loop; returns [status]. *)
Definition attempt_once (cfg : config) (w : world) (payload : dict)
    (failed_nodes : list dict) (attempt : Z) : M string :=
  get_current_timestamps w;;
  fun s =>
    let finally status :=
      record_ghr_log w status (payload_request_id payload) failed_nodes in
    match submit_ghr_request w payload (GHR_METHOD cfg) s with
    | (Return _, s1) =>
        (emit (Logged (AttemptSucceeded attempt));;
         finally "success";;
         ret "success") s1
    | (Raise e, s1) =>
        match (emit (Logged (AttemptFailed attempt e));;
               sleep (GHR_RETRY_INTERVAL cfg)) s1 with
        | (Return _, s2) => (finally "failure";; ret "failure") s2
        | (Raise e', s2) => (finally "failure";; raise e') s2
        end
    end.

(** [for attempt in range(1, GHR_MAX_RETRIES + 1):] over the attempts left. *)
Fixpoint attempts (cfg : config) (w : world) (payload : dict)
    (failed_nodes : list dict) (todo : list Z) : M unit :=
  match todo with
  | [] => ret tt
  | attempt :: todo' =>
      let! status := attempt_once cfg w payload failed_nodes attempt in
      if String.eqb status "success" then ret tt
      else attempts cfg w payload failed_nodes todo'
  end.

Definition run_ghr_if_needed (cfg : config) (w : world) (all_results : list dict)
  : M unit :=
  get_current_timestamps w;;
  if negb (ENABLE_GHR cfg) then emit (Logged GhrDisabled)
  else
    let! recent := has_recent_success w (GHR_SKIP_HOURS cfg) in
    if recent then emit (Logged SkippingRecentSuccess)
    else
      let! failed_nodes := lift (extract_failed all_results []) in
      if negb (nonempty failed_nodes) then emit (Logged NoFailureNodes)
      else
        let! failed_nodes := (if GHR_MAX_NODES cfg <? Z.of_nat (length failed_nodes)
           then emit (Logged (Trimming (length failed_nodes)));;
                ret (slice_to failed_nodes (GHR_MAX_NODES cfg))
           else ret failed_nodes) in
        let! t := now w in
        let payload_ts := isoformat_z (whole_seconds t) in
        let! payload := build_ghr_payload w (GHR_IMPACT_CATEGORY cfg)
                        (GHR_IMPACT_DESCRIPTION cfg) (GHR_ADDITIONAL cfg)
                        failed_nodes payload_ts in
        attempts cfg w payload failed_nodes (range 1 (GHR_MAX_RETRIES cfg + 1));;
        get_current_timestamps w;;
        emit (Logged ProcessCompleted).

(** *** Notions used to state what the submitter does *)

(** The time of a line that counts as a success: a "success" status and a
    timestamp that reads as a time with an offset. *)
Definition success_time (l : log_line) : option Z :=
  match l with
  | Entry e =>
      match timestamp e with
      | Aware ts => if String.eqb (status e) "success" then Some ts else None
      | _ => None
      end
  | Malformed => None
  end.

Definition success_times (lines : list log_line) : list Z :=
  omap success_time lines.

(** The latest of some times, if there is one. *)
Fixpoint latest (times : list Z) : option Z :=
  match times with
  | [] => None
  | ts :: times' =>
      match latest times' with
      | Some ts' => Some (Z.max ts ts')
      | None => Some ts
      end
  end.

(** The success of a log with the latest time. *)
Definition latest_success (lines : list log_line) : option Z :=
  latest (success_times lines).

(** The success written last, nearest to the end of the file. *)
Definition newest_success (lines : list log_line) : option Z :=
  last (success_times lines).

(** The successes of the log were written in the order of their times. *)
Definition chronological (lines : list log_line) : Prop :=
  StronglySorted Z.le (success_times lines).


(** The state a run leaves when it has only read the clock [n] times. *)
Definition after_reads (n : nat) (s : state) : state :=
  {| reads := n + reads s; calls := calls s; log := log s; events := events s |}.

End Ghr.

(** ** Concrete runs *)

Module Scenario.
Import Py.

(** *** A compute node whose probes all fail, and a scheduler without GPUs *)

Definition compute_node : Runner.config :=
  {| Runner.NODE_NAME := "hpc-1";
     Runner.TIMESTAMP := "20250101-0900";
     Runner.NODE_PREFIX := "hpc";
     Runner.NODE_COUNT := 2;
     Runner.HEALTH_CHECK_VERSION := "v0.4.4";
     Runner.NCCL_BW_THRESHOLD := 480%float;
     Runner.NCCL_MULTI_BW_THRESHOLD := 350%float |}.

Definition scheduler : Runner.config :=
  {| Runner.NODE_NAME := "hpc-scheduler";
     Runner.TIMESTAMP := "20250101-0900";
     Runner.NODE_PREFIX := "hpc";
     Runner.NODE_COUNT := 1;
     Runner.HEALTH_CHECK_VERSION := "v0.4.4";
     Runner.NCCL_BW_THRESHOLD := 480%float;
     Runner.NCCL_MULTI_BW_THRESHOLD := 350%float |}.

Definition eight_gpus : list string :=
  ["GPU 0"; "GPU 1"; "GPU 2"; "GPU 3"; "GPU 4"; "GPU 5"; "GPU 6"; "GPU 7"].

(** The NHC script runs into its timeout on every pass. *)
Definition nhc_times_out (i : nat) : Runner.probe_inputs :=
  {| Runner.nhc := Runner.NhcTimeout;
     Runner.gpus := Runner.Listing eight_gpus;
     Runner.single := Runner.Measured (Some 485%float);
     Runner.counts := fun _ => Runner.Count 8;
     Runner.multi := Runner.Measured (Some 360%float) |}.

(** [nvidia-smi -L] prints nothing. *)
Definition no_gpus (i : nat) : Runner.probe_inputs :=
  {| Runner.nhc := Runner.NhcExit 0 (Some "");
     Runner.gpus := Runner.Listing [];
     Runner.single := Runner.BenchRaised;
     Runner.counts := fun _ => Runner.CountRaised;
     Runner.multi := Runner.BenchRaised |}.

Definition reboot_twice : Runner.environ :=
  {| Runner.ENABLE_REBOOT_ON_FAILURE := Some "true";
     Runner.MAX_REBOOT_COUNT := Some "2" |}.

Definition fresh : Runner.state :=
  {| Runner.result_file := Runner.NoFile;
     Runner.reboot_required := false;
     Runner.saved := [] |}.

(** *** A fleet of three: a clean node, a check that hangs, a missing file *)

Definition fleet : Orchestrator.config :=
  {| Orchestrator.PREFIX := "hpc";
     Orchestrator.NODE_COUNT := 3;
     Orchestrator.TIMESTAMP := "20250101-0900";
     Orchestrator.MAX_PARALLEL := 10;
     Orchestrator.MAX_REBOOT_COUNT := 2;
     Orchestrator.RECHECK_INTERVAL_SECONDS := 30 |}.

Definition clean_result : dict :=
  <["node" := VStr "hpc-1"]> (
  <["initial_returncode" := VInt 0]> (
  <["final_returncode" := VInt 0]> (
  <["reboot_count" := VInt 0]> ∅))).

Definition clean : Orchestrator.remote :=
  {| Orchestrator.check_run := fun _ => Some 0;
     Orchestrator.flag_test := fun _ => 1;
     Orchestrator.reboot_run := fun _ => true;
     Orchestrator.cleanup_run := fun _ => true;
     Orchestrator.result_json := Runner.Json (VDict clean_result) |}.

Definition hangs : Orchestrator.remote :=
  {| Orchestrator.check_run := fun _ => None;
     Orchestrator.flag_test := fun _ => 1;
     Orchestrator.reboot_run := fun _ => true;
     Orchestrator.cleanup_run := fun _ => true;
     Orchestrator.result_json := Runner.NoFile |}.

Definition no_file : Orchestrator.remote :=
  {| Orchestrator.check_run := fun _ => Some 255;
     Orchestrator.flag_test := fun _ => 255;
     Orchestrator.reboot_run := fun _ => true;
     Orchestrator.cleanup_run := fun _ => true;
     Orchestrator.result_json := Runner.NoFile |}.

Definition fleet_worlds (i : nat) : Orchestrator.remote :=
  match i with
  | 0%nat => clean
  | 1%nat => hangs
  | _ => no_file
  end.

(** The last node submitted always completes first. *)
Definition last_first (t : nat) : nat := (100 - t)%nat.

(** *** Escalations *)

Definition escalation : Ghr.config :=
  {| Ghr.ENABLE_GHR := true;
     Ghr.GHR_SKIP_HOURS := 24;
     Ghr.GHR_IMPACT_CATEGORY := "NHC2001";
     Ghr.GHR_IMPACT_DESCRIPTION := "";
     Ghr.GHR_ADDITIONAL := ∅;
     Ghr.GHR_MAX_NODES := 10;
     Ghr.GHR_MAX_RETRIES := 3;
     Ghr.GHR_RETRY_INTERVAL := 5;
     Ghr.GHR_METHOD := "az" |}.

(** A clock that advances by a second and a half between two readings, and
    timestamps that print with all their six decimals. *)
Definition ticking (k : nat) : Z :=
  1700000000 * Ghr.second + Z.of_nat k * 1500001.

(** The intake service is down. *)
Definition service_down : Ghr.world :=
  {| Ghr.clock := ticking;
     Ghr.transport := fun _ => Raise (Exn "ConnectionError" "connection refused");
     Ghr.timestamp_text := str_of_int |}.

(** The intake service accepts every request. *)
Definition service_up : Ghr.world :=
  {| Ghr.clock := ticking;
     Ghr.transport := fun _ => Return tt;
     Ghr.timestamp_text := str_of_int |}.

Definition no_log : Ghr.state :=
  {| Ghr.reads := 0; Ghr.calls := 0; Ghr.log := None; Ghr.events := [] |}.

(** An hour before the first reading of [ticking], and two days before. *)
Definition success_at (t : Z) : Ghr.log_line :=
  Ghr.Entry {| Ghr.timestamp := Ghr.Aware t; Ghr.status := "success";
               Ghr.requestId := "1"; Ghr.nodes := [] |}.

Definition recent_log : Ghr.state :=
  {| Ghr.reads := 0; Ghr.calls := 0;
     Ghr.log := Some [success_at (ticking 0 - 48 * Ghr.hour); Ghr.Malformed;
                      success_at (ticking 0 - Ghr.hour)];
     Ghr.events := [] |}.

(** The only success of the log is two days old. *)
Definition old_log : Ghr.state :=
  {| Ghr.reads := 0; Ghr.calls := 0;
     Ghr.log := Some [success_at (ticking 0 - 48 * Ghr.hour)];
     Ghr.events := [] |}.

(** *** Results as the runner writes them *)

(** The NHC script runs and its log reports a missing GPU, on every pass;
    the bandwidth probes pass. *)
Definition nhc_reports_failure (i : nat) : Runner.probe_inputs :=
  {| Runner.nhc :=
       Runner.NhcExit 0 (Some ("FAIL: NHC2009 missing GPU" +:+ String "010" ""));
     Runner.gpus := Runner.Listing eight_gpus;
     Runner.single := Runner.Measured (Some 485%float);
     Runner.counts := fun _ => Runner.Count 8;
     Runner.multi := Runner.Measured (Some 360%float) |}.

(** The results a run of the runner has written with its final save. *)
Definition final_results (run : Runner.exit * Runner.state) : list dict :=
  omap (fun kd : Runner.save_kind * dict =>
          match kd.1 with
          | Runner.Final => Some kd.2
          | Runner.Intermediate => None
          end)
       (Runner.saved run.2).

(** The result of the compute node whose NHC log reports the missing GPU,
    after the two reboots it is allowed. *)
Definition failed_node_results : list dict :=
  final_results (Runner.main compute_node reboot_twice (Return "rid")
                             nhc_reports_failure Runner.NoFile fresh).

End Scenario.

(** ** health_manager/report_generator.py: the summary rows *)

Module Report.
Import Py.

(** How Python prints a value: [str(x)], [f"{x:.2f}"] and [f"{x:.1f}"].
    The conversions are taken as given. *)
Record formatting := {
  str : value -> string;
  two_decimals : value -> string;
  one_decimal : value -> string
}.

(** [v == n] for a small natural number [n] (exact below 2^53). *)
Definition eq_int (v : value) (n : Z) : bool :=
  match v with
  | VInt z => z =? n
  | VBool b => (if b then 1 else 0) =? n
  | VFloat f => (f =? PrimFloat.of_uint63 (Uint63.of_Z n))%float
  | _ => false
  end.

(** [isinstance(v, (int, float))]; a bool is an int. *)
Definition is_number (v : value) : bool :=
  match v with
  | VInt _ | VBool _ | VFloat _ => true
  | _ => false
  end.

(** The truth value of a value. *)
Definition truthy (v : value) : bool :=
  match v with
  | VNone => false
  | VBool b => b
  | VInt z => negb (z =? 0)
  | VFloat f => negb (f =? 0)%float
  | VStr s => negb (String.eqb s "")
  | VList l => nonempty l
  | VDict d => negb (bool_decide (d = ∅))
  end.

Definition headers : list string :=
  ["node"; "GPU NHC"; "NCCL Single Status"; "NCCL Single BW";
   "NCCL Multi Status"; "NCCL Multi BW"; "Initial Result"; "Reboot";
   "Final Result"].

(** The text for a return code. *)
Definition result_text (rc : value) : string :=
  if eq_int rc 0 then "All_Success"
  else if eq_int rc 255 then "SSH Fail"
  else "Fail".

Definition bw_text (fmt : formatting) (bw : value) : string :=
  if is_number bw then two_decimals fmt bw +:+ " GB/s" else "N/A".

(** The body of the loop over the results: the row of one entry. *)
Definition row_of (fmt : formatting) (entry : dict) : list value :=
  let node := get entry "node" (VStr "") in
  let gpu_ok := eq_int (get entry "initial_returncode" (VInt 1)) 0 in
  let gpu_str := if gpu_ok then "Success" else "Fail" in
  let nccl_status := get entry "nccl_status" (VStr "N/A") in
  let nccl_bw_str := bw_text fmt (get entry "nccl_bw" VNone) in
  let multi_status := get entry "multi_status" (VStr "N/A") in
  let multi_bw_str := bw_text fmt (get entry "nccl_multi_bw" VNone) in
  let init_str := result_text (get entry "initial_returncode" (VInt 1)) in
  let reboot := get entry "reboot_count" (VInt 0) in
  let final_str := result_text (get entry "final_returncode" (VInt 1)) in
  [node; VStr gpu_str; nccl_status; VStr nccl_bw_str; multi_status;
   VStr multi_bw_str; VStr init_str; VStr (str fmt reboot); VStr final_str].

(** What is handed to the two writers: the title of the HTML page, the
    lines of the CSV file and the rows of the HTML table. *)
Record report := {
  title : string;
  csv : list (list value);
  html_rows : list (list value)
}.

(** [summarize_and_output(results, result_dir)] *)
Definition summarize_and_output (fmt : formatting) (results : list dict)
  : outcome report :=
  match results with
  | [] => Raise (Exn "IndexError" "list index out of range")
  | first :: _ =>
      let ts := get first "timestamp" (VStr "") in
      let rows := row_of fmt <$> results in
      Return {| title := "HPC Check Summary (" +:+ str fmt ts +:+ ")";
                csv := (VStr <$> headers) :: rows;
                html_rows := rows |}
  end.

(** The end of the coordinator's [main]: the report on what was collected
    (the archive that follows has no part in it). *)
Definition main_report (fmt : formatting) (cfg : Orchestrator.config)
    (worlds : nat -> Orchestrator.remote) (sched : nat -> nat) : outcome report :=
  match Orchestrator.main cfg worlds sched with
  | Raise e => Raise e
  | Return results => summarize_and_output fmt results
  end.

(** The classes [write_html_summary] gives to a row and to its last cell. *)
Inductive css :=
  | NoClass
  | SshFail
  | AllSuccess
  | Fail.

Definition is_text (v : value) (s : string) : bool :=
  match v with
  | VStr t => String.eqb t s
  | _ => false
  end.

(** [final = row[-1]] and the class of the row; an empty row has no last
    cell. *)
Definition tr_class (row : list value) : outcome css :=
  match last row with
  | None => Raise (Exn "IndexError" "list index out of range")
  | Some final => Return (if is_text final "SSH Fail" then SshFail else NoClass)
  end.

(** The class of the cell at position [i] of [row]. *)
Definition td_class (row : list value) (i : nat) (cell : value) : css :=
  if (i =? length row - 1)%nat then
    if is_text cell "All_Success" then AllSuccess
    else if is_text cell "Fail" then Fail
    else NoClass
  else NoClass.

(** The classes of a table row: of the row, then of each cell. *)
Definition html_classes (row : list value) : outcome (css * list css) :=
  match tr_class row with
  | Raise e => Raise e
  | Return c => Return (c, imap (td_class row) row)
  end.

(** [filter_summary_for_report(results, scheduler_node)] *)
Definition filter_summary_for_report (results : list dict) (scheduler_node : string)
  : list dict :=
  filter (fun r => is_text (get r "node" VNone) scheduler_node = false) results.

(** *** notify_teams_failed_nodes *)

(** What the function does to the outside. *)
Inductive notice :=
  | AllPassed
  | Posted (text_lines : list string)
  | Sent
  | SendFailed (e : exn).

(** [node[k]], which raises KeyError when the key is missing. *)
Definition item (node : dict) (k : string) : outcome value :=
  match node !! k with
  | Some v => Return v
  | None => Raise (Exn "KeyError" ("'" +:+ k +:+ "'"))
  end.

Definition failed_line (fmt : formatting) (node : dict) : outcome string :=
  let bw := get node "nccl_bandwidth_gbps" VNone in
  let bw_str := if is_number bw then one_decimal fmt bw +:+ " GB/s" else "N/A" in
  match item node "node" with
  | Raise e => Raise e
  | Return name =>
      match item node "gpu_check" with
      | Raise e => Raise e
      | Return gpu_check =>
          Return ("- " +:+ str fmt name +:+ ": GPU="
                  +:+ (if truthy gpu_check then "OK" else "NG")
                  +:+ ", NCCL=" +:+ bw_str)
      end
  end.

(** The loop that builds the lines. *)
Fixpoint failed_lines (fmt : formatting) (failed_nodes : list dict)
    (text_lines : list string) : outcome (list string) :=
  match failed_nodes with
  | [] => Return text_lines
  | node :: rest =>
      match failed_line fmt node with
      | Raise e => Raise e
      | Return line => failed_lines fmt rest (text_lines ++ [line])
      end
  end.

(** [post] is what the webhook request does, [raise_for_status] included.
    Strings are sequences of bytes, the cross mark is its three bytes. *)
Definition notify_teams_failed_nodes (fmt : formatting) (post : outcome unit)
    (failed_nodes : list dict) : outcome unit * list notice :=
  if negb (nonempty failed_nodes) then (Return tt, [AllPassed])
  else
    match failed_lines fmt failed_nodes ["**❌ List of Failure nodes**"] with
    | Raise e => (Raise e, [])
    | Return text_lines =>
        match post with
        | Return _ => (Return tt, [Posted text_lines; Sent])
        | Raise e => (Return tt, [Posted text_lines; SendFailed e])
        end
    end.

End Report.

(** ** remote_node_utils.py: copying scripts and results, reboot and recheck *)

Module Remote.
Import Py.

(** What a helper does to the outside. *)
Inductive step :=
  | Scp
  | Slept (seconds : Z)
  | TestFile
  | TestFlag
  | Reboot
  | WaitForSsh
  | Recheck
  | AppendLog.

Definition negative_sleep : exn :=
  Exn "ValueError" "sleep length must be non-negative".

(** [time.sleep(seconds)] after the steps [done]. *)
Definition sleep {A} (seconds : Z) (done : list step)
    (k : list step -> outcome A * list step) : outcome A * list step :=
  if seconds <? 0 then (Raise negative_sleep, done)
  else k (done ++ [Slept seconds]).

(** *** scp_with_retry *)

(** [for i in range(1, retries + 1):]; [scp k] is the return code of the
    [k]-th run of scp, [None] when the run itself raises (its 60 s timeout,
    for one).  With [check=True] any code but 0 is an exception too. *)
Fixpoint scp_tries (scp : nat -> option Z) (delay : Z) (todo : list Z) (k : nat)
    (done : list step) : outcome bool * list step :=
  match todo with
  | [] => (Return false, done)
  | _ :: todo' =>
      let done := done ++ [Scp] in
      match scp k with
      | Some 0 => (Return true, done)
      | _ => sleep delay done (scp_tries scp delay todo' (S k))
      end
  end.

Definition scp_with_retry (scp : nat -> option Z) (retries delay : Z)
  : outcome bool * list step :=
  scp_tries scp delay (range 1 (retries + 1)) 0 [].

(** *** copy_script_to_node *)

(** [for attempt in range(1, max_retries + 1):]; [scp k] is [None] when the
    [k]-th run raises (its 60 s timeout, for one). *)
Fixpoint copy_tries (scp : nat -> option Z) (retry_delay : Z) (todo : list Z)
    (k : nat) (done : list step) : outcome bool * list step :=
  match todo with
  | [] => (Return false, done)
  | _ :: todo' =>
      let done := done ++ [Scp] in
      match scp k with
      | Some 0 => (Return true, done)
      | _ => sleep retry_delay done (copy_tries scp retry_delay todo' (S k))
      end
  end.

Definition copy_script_to_node (scp : nat -> option Z) (max_retries retry_delay : Z)
  : outcome bool * list step :=
  copy_tries scp retry_delay (range 1 (max_retries + 1)) 0 [].

(** *** distribute_scripts_parallel *)

(** [results[node] = fut.result()], or [False] when the future raised. *)
Definition record_copy (results : gmap string bool)
    (fut : outcome bool * string) : gmap string bool :=
  <[fut.2 := match fut.1 with
             | Return b => b
             | Raise _ => false
             end]> results.

(** [scps i] is what scp does for the [i]-th submitted node; [sched] is the
    order in which the futures complete. *)
Definition distribute_scripts_parallel (scps : nat -> nat -> option Z)
    (sched : nat -> nat) (nodes : list string)
    (max_workers max_retries retry_delay : Z) : outcome (gmap string bool) :=
  if max_workers <=? 0 then
    Raise (Exn "ValueError" "max_workers must be greater than 0")
  else
    let futures :=
      imap (fun i node =>
              ((copy_script_to_node (scps i) max_retries retry_delay).1, node))
           nodes in
    Return (foldl record_copy ∅ (Orchestrator.as_completed sched futures)).

(** *** fetch_remote_json *)



(** *** handle_reboot_and_recheck *)

(** What the node does: the output of the flag test, whether [sudo reboot]
    came back within its 10 s, what [wait_for_ssh] answered, and the return
    code of the second check ([None]: its 300 s timeout). *)
Record node := {
  flag_stdout : string;
  reboot_returns : bool;
  ssh_back : bool;
  recheck : option Z
}.

(** [v + 1] *)
Definition succ (v : value) : outcome value :=
  match v with
  | VInt z => Return (VInt (z + 1))
  | VBool b => Return (VInt ((if b then 1 else 0) + 1))
  | VFloat f => Return (VFloat (f + 1)%float)
  | _ => Raise (Exn "TypeError" "unsupported operand type(s) for +")
  end.

Definition TimeoutExpired : exn := Exn "TimeoutExpired" "Command timed out".

(** Returns what is returned or raised, the content of the [result] object
    afterwards (it is updated in place), and the steps taken. *)
Definition handle_reboot_and_recheck (n : node) (result : dict)
  : outcome dict * dict * list step :=
  if negb (contains "REBOOT" (flag_stdout n)) then
    (Return result, result, [TestFlag])
  else
    match succ (get result "reboot_count" (VInt 0)) with
    | Raise e => (Raise e, result, [TestFlag])
    | Return count =>
        let result := <["reboot_count" := count]> result in
        if negb (reboot_returns n) then
          (Raise TimeoutExpired, result, [TestFlag; Reboot])
        else if ssh_back n then
          match recheck n with
          | None =>
              (Raise TimeoutExpired, result, [TestFlag; Reboot; WaitForSsh; Recheck])
          | Some returncode =>
              let result := <["post_reboot_returncode" := VInt returncode]> result in
              (Return result, result,
               [TestFlag; Reboot; WaitForSsh; Recheck; AppendLog])
          end
        else (Return result, result, [TestFlag; Reboot; WaitForSsh])
    end.

(** Counting steps. *)
Definition is_scp (s : step) : bool :=
  match s with
  | Scp => true
  | _ => false
  end.

Definition runs (l : list step) : nat := length (List.filter is_scp l).

(** Whether a run of scp succeeded. *)
Definition exit_zero (r : option Z) : bool :=
  match r with
  | Some 0 => true
  | _ => false
  end.

(** The number of runs that fail before one succeeds, among the [n] runs
    that follow the first [k]. *)
Fixpoint failures_first (ok : nat -> bool) (k n : nat) : nat :=
  match n with
  | O => O
  | S n' => if ok k then O else S (failures_first ok (S k) n')
  end.

End Remote.

(** ** cluster_health_orchestrator.py: its own scp_with_retry *)

Module OrchestratorUtils.
Import Py.

(** [for i in range(retries):]; [scp k] is the return code of the [k]-th
    run of scp (which has no timeout). *)
Fixpoint scp_tries (scp : nat -> Z) (delay : Z) (todo : list Z) (k : nat)
    (done : list Remote.step) : outcome bool * list Remote.step :=
  match todo with
  | [] => (Return false, done)
  | _ :: todo' =>
      let done := done ++ [Remote.Scp] in
      if scp k =? 0 then (Return true, done)
      else Remote.sleep delay done (scp_tries scp delay todo' (S k))
  end.

Definition scp_with_retry (scp : nat -> Z) (retries delay : Z)
  : outcome bool * list Remote.step :=
  scp_tries scp delay (range 0 retries) 0 [].

End OrchestratorUtils.
(** ** Notions used to state further properties *)

Module Notions.
Import Py.

(** The shape of a code of the NHC: NHC and four decimal digits. *)
Definition nhc_code (code : string) : Prop :=
  exists d1 d2 d3 d4,
    code = String "N" (String "H" (String "C"
             (String d1 (String d2 (String d3 (String d4 EmptyString)))))) /\
    is_digit d1 = true /\ is_digit d2 = true /\
    is_digit d3 = true /\ is_digit d4 = true.

(** One round of a worker: check, flag test, reboot, and what follows. *)
Definition round : list Orchestrator.command :=
  [Orchestrator.RunCheck; Orchestrator.TestFlag; Orchestrator.Reboot;
   Orchestrator.Sleep; Orchestrator.WaitForSsh; Orchestrator.RemoveFlag].

End Notions.

(** ** More concrete runs *)

Module Cases.
Import Py.

(** Reboots switched off, although two would be allowed. *)
Definition no_reboot : Runner.environ :=
  {| Runner.ENABLE_REBOOT_ON_FAILURE := Some "no";
     Runner.MAX_REBOOT_COUNT := Some "2" |}.

(** An NHC log with one failing check; the code inside a longer word is not
    one. *)
Definition failing_log : string :=
  "PHYSICAL HOST NAME: ph-17" +:+ String "010" "" +:+
  "FAIL: NHC2009 missing GPU (see XNHC2001x)" +:+ String "010" "".

(** What the worker of the clean node of the fleet returns. *)
Definition clean_collected : dict :=
  <["timestamp" := VStr "20250101-0900"]> Scenario.clean_result.

(** A node that asks for a reboot after its first check only. *)
Definition reboots_once : Orchestrator.remote :=
  {| Orchestrator.check_run := fun attempt => Some (if attempt =? 1 then 1 else 0);
     Orchestrator.flag_test := fun attempt => if attempt =? 1 then 0 else 1;
     Orchestrator.reboot_run := fun _ => true;
     Orchestrator.cleanup_run := fun _ => true;
     Orchestrator.result_json := Runner.Json (VDict Scenario.clean_result) |}.

(** A fleet of no node. *)
Definition no_nodes : Orchestrator.config :=
  {| Orchestrator.PREFIX := "hpc";
     Orchestrator.NODE_COUNT := 0;
     Orchestrator.TIMESTAMP := "20250101-0900";
     Orchestrator.MAX_PARALLEL := 10;
     Orchestrator.MAX_REBOOT_COUNT := 2;
     Orchestrator.RECHECK_INTERVAL_SECONDS := 30 |}.

(** Conversions that print strings as they are and ints in decimal (and
    anything else as a question mark: nothing else is printed below). *)
Definition plain_str (v : value) : string :=
  match v with
  | VStr s => s
  | VInt z => str_of_int z
  | _ => "?"
  end.

Definition plain : Report.formatting :=
  {| Report.str := plain_str;
     Report.two_decimals := plain_str;
     Report.one_decimal := plain_str |}.

(** Runs of scp of which the first runs into its timeout and the second
    exits with 1; and the runs for two nodes, all failing for the second. *)
Definition fails_twice (k : nat) : option Z :=
  match k with
  | 0%nat => None
  | 1%nat => Some 1
  | _ => Some 0
  end.

Definition copies (i : nat) : nat -> option Z :=
  match i with
  | 0%nat => fails_twice
  | _ => fun _ => Some 1
  end.

(** Additional properties that name a category and a time stamp. *)
Definition additional : dict :=
  <["category" := VStr "NHC2009"]> (<["timestamp" := VStr "never"]> ∅).

End Cases.

(** * Facts *)

(** ** The probes and the per-node loop *)

Module RunnerFacts.
Import Py Runner.

Ltac lookup_ins :=
  repeat (rewrite lookup_insert_eq || (rewrite lookup_insert_ne by discriminate)).

(** The GPU probe gives a tuple whatever the NHC run did: nothing is raised.
    On a node that is not the scheduler, a timeout, any other exception, a
    non-zero return code and an unreadable log all give the same answer. *)
Lemma gpu_adapter_failure cfg run :
  endswith "-scheduler" (NODE_NAME cfg) = false ->
  match run with
  | NhcExit returncode log => returncode <> 0 \/ log = None
  | _ => True
  end ->
  run_gpu_health_check cfg run = gpu_failure.
Proof.
  intros Hname Hrun. unfold run_gpu_health_check. rewrite Hname.
  destruct run as [| |rc log]; try reflexivity.
  destruct (Z.eqb_spec rc 0) as [->|Hrc]; simpl.
  - destruct Hrun as [Hrun | ->]; [congruence | reflexivity].
  - reflexivity.
Qed.

Lemma gpu_failure_codes :
  gpu_failure.1.1.1 = false /\
  get gpu_failure.1.1.2 "nhc_error_codes" VNone = VList [].
Proof. split; reflexivity. Qed.

(** The single-node bandwidth probe never fails without a code. *)
Lemma nccl_failed_has_code cfg g b bw codes :
  run_nccl_test cfg g b = (Some false, bw, codes) -> codes <> [].
Proof.
  unfold run_nccl_test. destruct g as [|lines]; [discriminate|].
  destruct (_ =? 0)%nat; [discriminate|].
  destruct (_ <? 8)%nat; [discriminate|].
  destruct b as [| |[x|]]; cbn -[PrimFloat.leb];
    try destruct (_ <=? _)%float; cbn;
    intros H; inversion H; subst; discriminate.
Qed.

(** Neither does the multi-node one. *)
Lemma nccl_multi_failed_has_code cfg c b :
  passed (run_nccl_multi_node_test cfg c b) = Some false ->
  multi_error_codes (run_nccl_multi_node_test cfg c b) <> [].
Proof.
  unfold run_nccl_multi_node_test.
  destruct (_ <? 2)%nat; [discriminate|].
  destruct (check_gpu_counts _); [discriminate|].
  destruct b as [| |[x|]]; simpl; try discriminate.
  destruct (_ <=? _)%float; simpl; discriminate.
Qed.

(** No GPU listed: the probe passes with bandwidth 0.0 and code NCCL1001. *)
Lemma nccl_zero_gpus cfg b :
  run_nccl_test cfg (Listing []) b = (Some true, Some 0%float, ["NCCL1001"]).
Proof. reflexivity. Qed.

Lemma nccl_zero_gpus_only cfg lines b :
  length (remove_dups lines) = 0%nat ->
  run_nccl_test cfg (Listing lines) b = (Some true, Some 0%float, ["NCCL1001"]).
Proof. intros H. unfold run_nccl_test. rewrite H. reflexivity. Qed.

(** *** The result dictionary of one pass *)

Lemma check_pass_initial cfg inp rc :
  (check_pass cfg inp rc).2 !! "initial_returncode"
  = Some (VInt (if (check_pass cfg inp rc).1 then 0 else 1)).
Proof.
  unfold check_pass.
  destruct (run_gpu_health_check _ _) as [[[gpu_ok detail] physical] vmname].
  destruct (run_nccl_test _ _ _) as [[nccl_ok bw] codes].
  cbn [fst snd]. lookup_ins. reflexivity.
Qed.

Lemma check_pass_final cfg inp rc :
  (check_pass cfg inp rc).2 !! "final_returncode" = Some (VInt 0).
Proof.
  unfold check_pass.
  destruct (run_gpu_health_check _ _) as [[[gpu_ok detail] physical] vmname].
  destruct (run_nccl_test _ _ _) as [[nccl_ok bw] codes].
  cbn [fst snd]. lookup_ins. reflexivity.
Qed.

(** [overall] does not depend on the reboot count. *)
Lemma check_pass_overall cfg inp rc rc' :
  (check_pass cfg inp rc).1 = (check_pass cfg inp rc').1.
Proof.
  unfold check_pass.
  destruct (run_gpu_health_check _ _) as [[[gpu_ok detail] physical] vmname].
  destruct (run_nccl_test _ _ _) as [[nccl_ok bw] codes].
  reflexivity.
Qed.

(** The runner never writes the three keys the escalation reads. *)
Lemma check_pass_code_keys cfg inp rc k :
  k ∈ ["nhc_error_codes"; "nccl_error_codes"; "multi_error_codes"] ->
  (check_pass cfg inp rc).2 !! k = None.
Proof.
  intros Hk. unfold check_pass.
  destruct (run_gpu_health_check _ _) as [[[gpu_ok detail] physical] vmname].
  destruct (run_nccl_test _ _ _) as [[nccl_ok bw] codes].
  cbn [fst snd].
  repeat (apply elem_of_cons in Hk as [->|Hk]; [lookup_ins; reflexivity|]).
  by apply elem_of_nil in Hk.
Qed.

(** *** The loop *)

Lemma written_ok_weaken lo hi lo' hi' kd :
  lo' <= lo -> hi <= hi' -> written_ok lo hi kd -> written_ok lo' hi' kd.
Proof.
  intros ? ? (Hi & Hf & c & Hc & ?). repeat split; try assumption.
  exists c. split; [assumption | lia].
Qed.

Lemma reboot_requests_app l1 l2 :
  reboot_requests (l1 ++ l2) = (reboot_requests l1 + reboot_requests l2)%nat.
Proof. unfold reboot_requests. rewrite List.filter_app, length_app. reflexivity. Qed.

Section Loop.
Variables (cfg : config) (ENABLE : bool) (MAXR : Z) (imds : outcome string).
Variable probes : nat -> probe_inputs.

Local Abbreviation run := (loop cfg ENABLE MAXR imds probes).

(** Everything the loop saves is appended to the history, has the return
    code of its kind, and a reboot count between the one the loop started
    with and the maximum. *)
Lemma loop_saved fuel : forall iteration reboot_count st,
  exists new,
    saved (run fuel iteration reboot_count st).2 = saved st ++ new /\
    Forall (written_ok reboot_count (Z.max reboot_count MAXR)) new /\
    (reboot_requests new <= Z.to_nat (MAXR - reboot_count))%nat.
Proof.
  induction fuel as [|fuel IH]; intros it rc st; cbn [loop].
  - exists []. rewrite app_nil_r. repeat split; [constructor | cbn; lia].
  - pose proof (check_pass_initial cfg (probes (S it)) rc) as Hi.
    pose proof (check_pass_final cfg (probes (S it)) rc) as Hf.
    destruct (check_pass cfg (probes (S it)) rc) as [overall result].
    cbn [fst snd] in Hi, Hf.
    destruct (negb overall && ENABLE && (rc <? MAXR)) eqn:Hgo.
    + apply andb_prop in Hgo as [Hgo Hlt]. apply andb_prop in Hgo as [Hov _].
      apply negb_true_iff in Hov. subst overall.
      apply Z.ltb_lt in Hlt.
      match goal with |- context [run fuel (S it) (rc + 1) ?s] =>
        destruct (IH (S it) (rc + 1) s) as (new & Hs & Hall & Hn) end.
      exists ((Intermediate, <["reboot_count" := VInt (rc + 1)]> result) :: new).
      split; [|split].
      * rewrite Hs. cbn [saved save_result touch_reboot_required].
        rewrite <- app_assoc. reflexivity.
      * constructor.
        -- repeat split; cbn [fst snd is_intermediate].
           ++ rewrite lookup_insert_ne by discriminate. exact Hi.
           ++ intros _. rewrite lookup_insert_ne by discriminate. exact Hf.
           ++ exists (rc + 1). rewrite lookup_insert_eq. split; [reflexivity | lia].
        -- eapply Forall_impl; [exact Hall|].
           intros kd. apply written_ok_weaken; lia.
      * change (_ :: new) with ([(Intermediate, <["reboot_count" := VInt (rc + 1)]> result)] ++ new).
        rewrite reboot_requests_app. cbn. lia.
    + destruct imds as [rid|e]; cbn [snd].
      * exists [(Final, <["impactedResourceId" := VStr rid]>
                   (<["reboot_count" := VInt rc]>
                      (<["final_returncode" := VInt (if overall then 0 else 1)]>
                         (<["initial_returncode" := VInt 0]> result))))].
        split; [reflexivity|]. split; [|cbn; lia].
        constructor; [|constructor].
        repeat split; cbn [fst snd is_intermediate].
        -- lookup_ins. reflexivity.
        -- discriminate.
        -- exists rc. lookup_ins. split; [reflexivity | lia].
      * exists []. rewrite app_nil_r. repeat split; [constructor | cbn; lia].
Qed.

(** Nothing the loop saves has one of the keys the escalation reads. *)
Lemma loop_saved_code_keys fuel : forall iteration reboot_count st,
  exists new,
    saved (run fuel iteration reboot_count st).2 = saved st ++ new /\
    Forall (fun kd => forall k,
              k ∈ ["nhc_error_codes"; "nccl_error_codes"; "multi_error_codes"] ->
              kd.2 !! k = None) new.
Proof.
  induction fuel as [|fuel IH]; intros it rc st; cbn [loop].
  - exists []. rewrite app_nil_r. split; [reflexivity | constructor].
  - pose proof (check_pass_code_keys cfg (probes (S it)) rc) as Hk.
    destruct (check_pass cfg (probes (S it)) rc) as [overall result].
    cbn [snd] in Hk.
    assert (forall k v (d : dict),
              k ∈ ["reboot_count"; "initial_returncode"; "final_returncode";
                   "impactedResourceId"] ->
              (forall k', k' ∈ ["nhc_error_codes"; "nccl_error_codes";
                                "multi_error_codes"] -> d !! k' = None) ->
              forall k', k' ∈ ["nhc_error_codes"; "nccl_error_codes";
                               "multi_error_codes"] -> <[k := v]> d !! k' = None)
      as Hins.
    { intros k v d Hin Hd k' Hin'. rewrite lookup_insert_ne; [by apply Hd|].
      intros ->.
      repeat (apply elem_of_cons in Hin as [->|Hin];
              [repeat (apply elem_of_cons in Hin' as [?|Hin']; [discriminate|]);
               by apply elem_of_nil in Hin'|]).
      by apply elem_of_nil in Hin. }
    destruct (negb overall && ENABLE && (rc <? MAXR)).
    + match goal with |- context [run fuel (S it) (rc + 1) ?s] =>
        destruct (IH (S it) (rc + 1) s) as (new & Hs & Hall) end.
      eexists (_ :: new). split.
      * rewrite Hs. cbn [saved save_result touch_reboot_required].
        rewrite <- app_assoc. reflexivity.
      * constructor; [|exact Hall]. cbn [snd].
        apply Hins; [set_solver | exact Hk].
    + destruct imds as [rid|e]; cbn [snd].
      * eexists [_]. split; [reflexivity|]. constructor; [|constructor].
        cbn [snd]. repeat (apply Hins; [set_solver|]). exact Hk.
      * exists []. rewrite app_nil_r. split; [reflexivity | constructor].
Qed.

(** One step more than the reboots still allowed is enough fuel. *)
Lemma loop_terminates fuel : forall iteration reboot_count st,
  (Z.to_nat (MAXR - reboot_count) < fuel)%nat ->
  (run fuel iteration reboot_count st).1 <> OutOfFuel.
Proof.
  induction fuel as [|fuel IH]; intros it rc st Hfuel; [lia|]. cbn [loop].
  destruct (check_pass cfg (probes (S it)) rc) as [overall result].
  destruct (negb overall && ENABLE && (rc <? MAXR)) eqn:Hgo.
  - apply andb_prop in Hgo as [_ Hlt]. apply Z.ltb_lt in Hlt.
    apply IH. lia.
  - destruct imds; discriminate.
Qed.

(** A pass on which every probe passes, or is skipped, ends the loop. *)
Lemma loop_pass fuel iteration reboot_count st resource_id :
  (check_pass cfg (probes (S iteration)) reboot_count).1 = true ->
  imds = Return resource_id ->
  exists d,
    run (S fuel) iteration reboot_count st = (Exited, save_result Final d st) /\
    d !! "initial_returncode" = Some (VInt 0) /\
    d !! "final_returncode" = Some (VInt 0) /\
    d !! "reboot_count" = Some (VInt reboot_count).
Proof.
  intros Hov ->. cbn [loop].
  destruct (check_pass cfg (probes (S iteration)) reboot_count) as [overall result].
  cbn [fst] in Hov. subst overall. cbn [negb andb].
  eexists. split; [reflexivity|]. repeat split; lookup_ins; reflexivity.
Qed.

(** When every pass fails, the loop asks for exactly the reboots that are
    left and then writes a final result with return code 1. *)
Lemma loop_persistent_failure fuel resource_id :
  ENABLE = true ->
  imds = Return resource_id ->
  (forall i rc, (check_pass cfg (probes i) rc).1 = false) ->
  forall iteration reboot_count st,
  reboot_count <= MAXR ->
  (Z.to_nat (MAXR - reboot_count) < fuel)%nat ->
  exists new d st',
    run fuel iteration reboot_count st = (Exited, st') /\
    saved st' = saved st ++ new ++ [(Final, d)] /\
    result_file st' = Json (VDict d) /\
    reboot_requests new = Z.to_nat (MAXR - reboot_count) /\
    Forall (fun kd => is_intermediate kd.1 = true) new /\
    d !! "final_returncode" = Some (VInt 1) /\
    d !! "reboot_count" = Some (VInt MAXR).
Proof.
  intros -> -> Hfail.
  induction fuel as [|fuel IH]; intros it rc st Hle Hfuel; [lia|]. cbn [loop].
  specialize (Hfail (S it) rc).
  destruct (check_pass cfg (probes (S it)) rc) as [overall result].
  cbn [fst] in Hfail. subst overall. cbn [negb andb].
  destruct (Z.ltb_spec rc MAXR) as [Hlt|Hge].
  - match goal with |- context [loop _ _ _ _ _ fuel (S it) (rc + 1) ?s] =>
      destruct (IH (S it) (rc + 1) s)
        as (new & d & st' & Hrun & Hs & Hfile & Hn & Hk & Hf & Hc);
        [lia | lia |] end.
    exists ((Intermediate, <["reboot_count" := VInt (rc + 1)]> result) :: new), d, st'.
    split; [exact Hrun|]. split; [|split; [exact Hfile|split; [|split; [|split]]]];
      try assumption.
    + rewrite Hs. cbn [saved save_result touch_reboot_required].
      rewrite <- app_assoc. reflexivity.
    + change (_ :: new) with ([(Intermediate, <["reboot_count" := VInt (rc + 1)]> result)] ++ new).
      rewrite reboot_requests_app, Hn. cbn. lia.
    + constructor; [reflexivity | assumption].
  - assert (rc = MAXR) as -> by lia.
    eexists [], _, _. split; [reflexivity|].
    split; [reflexivity|]. split; [reflexivity|].
    split; [cbn; lia|]. split; [constructor|].
    split; lookup_ins; reflexivity.
Qed.

End Loop.

(** [main] always comes to an end: it returns or an exception escapes. *)
Lemma main_terminates cfg env imds probes previous st :
  (main cfg env imds probes previous st).1 <> OutOfFuel.
Proof.
  unfold main.
  destruct (int_of_str (default "0" (MAX_REBOOT_COUNT env))) as [MAXR|];
    [|discriminate].
  apply loop_terminates. lia.
Qed.

(** A node whose probes pass on the first pass: no reboot, return codes 0. *)
Lemma main_first_pass cfg env probes previous st resource_id MAXR :
  int_of_str (default "0" (MAX_REBOOT_COUNT env)) = Some MAXR ->
  (forall rc, (check_pass cfg (probes 1%nat) rc).1 = true) ->
  exists d,
    main cfg env (Return resource_id) probes previous st
    = (Exited, save_result Final d st) /\
    d !! "initial_returncode" = Some (VInt 0) /\
    d !! "final_returncode" = Some (VInt 0) /\
    d !! "reboot_count"
    = Some (VInt (load_reboot_count previous (load_reboot_count (result_file st) 0))).
Proof.
  intros HM Hpass. unfold main. rewrite HM.
  eapply loop_pass; [apply Hpass | reflexivity].
Qed.

End RunnerFacts.

(** ** The fleet coordinator *)

Module OrchestratorFacts.
Import Py Orchestrator.

Ltac lookup_ins :=
  repeat (rewrite lookup_insert_eq || (rewrite lookup_insert_ne by discriminate)).

(** *** Completion order *)

Lemma drain_permutation {A} (sched : nat -> nat) n : forall t (pending : list A),
  length pending = n -> drain sched t n pending ≡ₚ pending.
Proof.
  induction n as [|n IH]; intros t pending Hlen; cbn [drain].
  - destruct pending; [reflexivity | discriminate].
  - assert (sched t mod length pending < length pending)%nat as Hi
      by (apply Nat.mod_upper_bound; lia).
    destruct (lookup_lt_is_Some_2 _ _ Hi) as [fut Hfut]. rewrite Hfut.
    etransitivity; [|symmetry; apply (delete_Permutation pending _ fut Hfut)].
    constructor. apply IH.
    rewrite length_delete by eauto. lia.
Qed.

Lemma as_completed_permutation {A} (sched : nat -> nat) (futures : list A) :
  as_completed sched futures ≡ₚ futures.
Proof. apply drain_permutation. reflexivity. Qed.

Lemma foldl_append {A B} (g : A -> B) (l : list A) : forall acc,
  foldl (fun results fut => results ++ [g fut]) acc l = acc ++ (g <$> l).
Proof.
  induction l as [|x l IH]; intros acc; cbn.
  - rewrite app_nil_r. reflexivity.
  - rewrite IH, <- app_assoc. reflexivity.
Qed.

(** *** The collected results *)

Lemma collect_results_spec cfg nodes worlds sched :
  0 < MAX_PARALLEL cfg ->
  exists results,
    collect_results cfg nodes worlds sched = Return results /\
    results ≡ₚ imap (node_result cfg worlds) nodes.
Proof.
  intros HP. unfold collect_results.
  destruct (Z.leb_spec (MAX_PARALLEL cfg) 0) as [?|_]; [lia|].
  eexists. split; [reflexivity|].
  rewrite foldl_append, app_nil_l, as_completed_permutation.
  rewrite fmap_imap. reflexivity.
Qed.

Lemma elem_of_imap_lookup {A B} (f : nat -> A -> B) (l : list A) i x :
  l !! i = Some x -> f i x ∈ imap f l.
Proof.
  intros H. apply list_elem_of_lookup. exists i.
  rewrite list_lookup_imap, H. reflexivity.
Qed.

(** A faulted run gives the fallback codes and an error text. *)
Lemma faulted_result cfg worlds i node :
  faulted cfg node (worlds i) ->
  let d := node_result cfg worlds i node in
  d !! "node" = Some (VStr node) /\
  d !! "initial_returncode" = Some (VInt 255) /\
  d !! "final_returncode" = Some (VInt 255) /\
  exists msg, d !! "error" = Some (VStr msg).
Proof.
  intros Hf. unfold node_result, collect_one.
  assert (forall e, let d := fallback cfg node e in
            d !! "node" = Some (VStr node) /\
            d !! "initial_returncode" = Some (VInt 255) /\
            d !! "final_returncode" = Some (VInt 255) /\
            exists msg, d !! "error" = Some (VStr msg)) as Hfb.
  { intros e. unfold fallback. cbn zeta.
    repeat split; lookup_ins; eauto. }
  destruct Hf as [[e He]|Hno].
  - rewrite He. apply Hfb.
  - unfold run_check_on_node. rewrite Hno.
    destruct (attempts _ _ _ _) as [[[]|e] done]; cbn [fst].
    + unfold missing_json. cbn zeta. repeat split; lookup_ins; eauto.
    + apply Hfb.
Qed.

Lemma setdefault_lookup k v (d : dict) k' :
  setdefault k v d !! k' =
  if decide (k = k') then Some (default v (d !! k)) else d !! k'.
Proof.
  unfold setdefault. destruct (d !! k) as [x|] eqn:E.
  - destruct (decide (k = k')) as [<-|]; [rewrite E|]; reflexivity.
  - destruct (decide (k = k')) as [<-|].
    + rewrite lookup_insert_eq. reflexivity.
    + rewrite lookup_insert_ne by assumption. reflexivity.
Qed.

(** The "node" entry of a collected result is the node it was submitted
    for, unless the result JSON says otherwise. *)
Lemma node_result_node cfg worlds i node :
  names_its_node node (result_json (worlds i)) ->
  node_result cfg worlds i node !! "node" = Some (VStr node).
Proof.
  intros Hname. unfold node_result, collect_one, run_check_on_node.
  destruct (attempts _ _ _ _) as [[[]|e] done]; cbn [fst].
  - destruct (result_json (worlds i)) as [| |v]; cbn [fst].
    + unfold missing_json. lookup_ins. reflexivity.
    + unfold fallback. lookup_ins. reflexivity.
    + destruct v; cbn [fst]; try (unfold fallback; lookup_ins; reflexivity).
      rewrite !setdefault_lookup.
      repeat (destruct (decide _) as [?|_]; [discriminate|]).
      destruct (decide _) as [_|?]; [|congruence].
      cbn in Hname. destruct Hname as [-> | ->]; reflexivity.
  - unfold fallback. lookup_ins. reflexivity.
Qed.

(** *** Reboots issued by one worker *)

Lemma reboots_app l1 l2 : reboots (l1 ++ l2) = (reboots l1 + reboots l2)%nat.
Proof. unfold reboots. rewrite List.filter_app, length_app. reflexivity. Qed.

Lemma attempts_reboots cfg w todo : forall done,
  (reboots (attempts cfg w todo done).2
   <= reboots done + allowed (MAX_REBOOT_COUNT cfg) todo)%nat.
Proof.
  induction todo as [|attempt todo IH]; intros done; cbn [attempts].
  - unfold allowed. cbn [snd List.filter length]. lia.
  - unfold allowed in *. cbn [List.filter].
    destruct (check_run w attempt) as [ret|]; cbn [snd].
    2:{ rewrite reboots_app. cbn [reboots List.filter is_reboot length]. lia. }
    destruct (negb (flag_test w attempt =? 0)); cbn [snd].
    { rewrite reboots_app. cbn [reboots List.filter is_reboot length]. lia. }
    destruct (Z.ltb_spec (MAX_REBOOT_COUNT cfg) attempt) as [Hgt|Hle]; cbn [snd].
    { rewrite reboots_app. cbn [reboots List.filter is_reboot length]. lia. }
    destruct (Z.leb_spec attempt (MAX_REBOOT_COUNT cfg)) as [_|?]; [|lia].
    cbn [length].
    destruct (negb (reboot_run w attempt)); cbn [snd].
    { rewrite !reboots_app. cbn [reboots List.filter is_reboot length]. lia. }
    destruct (RECHECK_INTERVAL_SECONDS cfg <? 0); cbn [snd].
    { rewrite !reboots_app. cbn [reboots List.filter is_reboot length]. lia. }
    destruct (negb (cleanup_run w attempt)); cbn [snd].
    { rewrite !reboots_app. cbn [reboots List.filter is_reboot length]. lia. }
    etransitivity; [apply IH|]. rewrite !reboots_app.
    cbn [reboots List.filter is_reboot length]. lia.
Qed.

Lemma allowed_seq (M : Z) n : forall k,
  allowed M ((fun i : nat => 1 + Z.of_nat i) <$> seq k n)
  = (Nat.min (k + n) (Z.to_nat M) - Nat.min k (Z.to_nat M))%nat.
Proof.
  unfold allowed. induction n as [|n IH]; intros k; cbn [seq fmap list_fmap List.filter].
  - cbn. lia.
  - destruct (Z.leb_spec (1 + Z.of_nat k) M); cbn [length]; rewrite IH; lia.
Qed.

Lemma allowed_range M : allowed M (range 1 (M + 2)) = Z.to_nat M.
Proof. unfold range. rewrite allowed_seq. lia. Qed.

(** One worker reboots its node at most MAX_REBOOT_COUNT times. *)
Lemma worker_reboots_bounded cfg node w :
  (reboots (run_check_on_node cfg node w).2 <= Z.to_nat (MAX_REBOOT_COUNT cfg))%nat.
Proof.
  unfold run_check_on_node.
  pose proof (attempts_reboots cfg w (range 1 (MAX_REBOOT_COUNT cfg + 2)) []) as H.
  rewrite allowed_range in H. cbn in H.
  destruct (attempts _ _ _ _) as [[[]|e] done]; cbn [snd] in *.
  - destruct (result_json w) as [| |[]]; cbn [snd]; exact H.
  - exact H.
Qed.

End OrchestratorFacts.

(** ** The escalation submitter *)

Module GhrFacts.
Import Py Ghr.

Ltac lookup_ins :=
  repeat (rewrite lookup_insert_eq || (rewrite lookup_insert_ne by discriminate)).

(** *** The deduplication scan *)

Lemma scan_success_time cutoff l lines :
  scan cutoff (l :: lines) =
  match success_time l with
  | Some ts => if cutoff <=? ts then true else scan cutoff lines
  | None => scan cutoff lines
  end.
Proof.
  destruct l as [|e]; cbn [scan success_time]; [reflexivity|].
  destruct (timestamp e); try reflexivity.
  destruct (String.eqb (status e) "success"); reflexivity.
Qed.

(** The scan answers True exactly when some success is not older than the
    cutoff. *)
Lemma scan_true_iff cutoff lines :
  scan cutoff lines = true <->
  exists ts, ts ∈ success_times lines /\ cutoff <= ts.
Proof.
  unfold success_times. induction lines as [|l lines IH].
  - cbn. split; [discriminate|]. intros (ts & H & _). by apply elem_of_nil in H.
  - rewrite scan_success_time. cbn [omap list_omap].
    destruct (success_time l) as [ts|].
    + destruct (Z.leb_spec cutoff ts) as [Hle|Hlt].
      * split; [|reflexivity]. intros _. exists ts. split; [left | assumption].
      * rewrite IH. split.
        -- intros (t & Hin & Ht). exists t. split; [by right | assumption].
        -- intros (t & Hin & Ht). apply elem_of_cons in Hin as [->|Hin]; [lia|].
           eauto.
    + exact IH.
Qed.

Lemma latest_spec times :
  match latest times with
  | Some ts => ts ∈ times /\ Forall (fun t => t <= ts) times
  | None => times = []
  end.
Proof.
  induction times as [|t times IH]; cbn [latest]; [reflexivity|].
  destruct (latest times) as [ts'|].
  - destruct IH as [Hin Hall]. split.
    + destruct (Z.max_spec t ts') as [[_ ->]|[_ ->]]; [by right | left].
    + constructor; [lia|]. eapply Forall_impl; [exact Hall|]. cbn. lia.
  - subst times. split; [left|]. constructor; [lia | constructor].
Qed.





(** In a log written in the order of time, the most recent success is the
    one written last. *)
Lemma latest_last times :
  StronglySorted Z.le times -> latest times = last times.
Proof.
  induction 1 as [|t times Hs IH Hall]; [reflexivity|].
  cbn [latest]. rewrite IH. destruct times as [|t' times']; [reflexivity|].
  rewrite last_cons_cons. pose proof (latest_spec (t' :: times')) as Hl.
  rewrite IH in Hl. destruct (last (t' :: times')) as [m|]; [|discriminate].
  destruct Hl as [Hin _]. rewrite Forall_forall in Hall.
  specialize (Hall m Hin). f_equal. lia.
Qed.

Lemma chronological_latest lines :
  chronological lines -> latest_success lines = newest_success lines.
Proof. apply latest_last. Qed.

(** *** What the functions do to the state *)

Ltac run_step :=
  repeat (progress (unfold bind, ret, raise, lift, now, emit, get_current_timestamps,
                    astimezone, append_line, log_and_reraise;
                    cbn [reads calls log events fst snd])).

(** Getting the timestamps reads the clock and raises. *)
Lemma get_current_timestamps_run w s :
  get_current_timestamps w s = (Raise not_a_tzinfo, after_reads 1 s).
Proof. reflexivity. Qed.

Lemma has_recent_success_run w hours s :
  has_recent_success w hours s =
  (match minus_hours (clock w (reads s)) hours with
   | Return cutoff =>
       Return match log s with
              | None => false
              | Some lines => scan cutoff (reverse lines)
              end
   | Raise e => Raise e
   end,
   after_reads 1 s).
Proof.
  unfold has_recent_success, bind, now, lift, after_reads.
  cbn [reads calls log events].
  destruct (minus_hours _ _); [|reflexivity].
  cbn [reads calls log events]. destruct (log s); reflexivity.
Qed.

(** A decorated function returns what the function returns; when the
    function raises, the handler raises in its turn, before it has logged
    anything, and that exception takes the place of the first. *)
Lemma log_and_reraise_run {A} w name (func : M A) s :
  log_and_reraise w name func s =
  match func s with
  | (Return a, s') => (Return a, s')
  | (Raise e, s') => (Raise not_a_tzinfo, after_reads 1 s')
  end.
Proof. unfold log_and_reraise. destruct (func s) as [[a|e] s']; reflexivity. Qed.

(** Recording an attempt raises twice, in the function and in the handler
    of its decorator, and never opens the log. *)
Lemma record_ghr_log_run w st rid ns s :
  record_ghr_log w st rid ns s = (Raise not_a_tzinfo, after_reads 2 s).
Proof. reflexivity. Qed.


(** A request is sent with the payload it is given; when the transport
    raises, the exception of the timestamps escapes in place of its own. *)
Lemma submit_ghr_request_run w payload method s :
  submit_ghr_request w payload method s =
  let sent :=
    {| reads := reads s; calls := S (calls s); log := log s;
       events := events s ++
                 [Requested (if bool_decide (upper method ∈ ["POST"; "PUT"])
                             then method else "POST") payload] |} in
  match transport w (calls s) with
  | Return _ => (Return tt, sent)
  | Raise _ => (Raise not_a_tzinfo, after_reads 1 sent)
  end.
Proof.
  unfold submit_ghr_request. rewrite log_and_reraise_run. cbv zeta.
  destruct (transport w (calls s)) as [[]|e]; reflexivity.
Qed.

(** A turn of the retry loop raises before it makes its request. *)
Lemma attempt_once_run cfg w payload failed_nodes attempt s :
  attempt_once cfg w payload failed_nodes attempt s
  = (Raise not_a_tzinfo, after_reads 1 s).
Proof. reflexivity. Qed.

Lemma attempts_run cfg w payload failed_nodes attempt todo s :
  attempts cfg w payload failed_nodes (attempt :: todo) s
  = (Raise not_a_tzinfo, after_reads 1 s).
Proof. reflexivity. Qed.

(** A run raises at its first statement. *)
Lemma run_ghr_if_needed_run cfg w all_results s :
  run_ghr_if_needed cfg w all_results s = (Raise not_a_tzinfo, after_reads 1 s).
Proof. reflexivity. Qed.

(** *** The failed nodes *)

(** A result as the runner writes it has none of the three keys: the
    submitter reads no code from it, whatever its "error_codes" holds. *)
Lemma no_code_keys_no_codes (entry : dict) :
  entry !! "nhc_error_codes" = None ->
  entry !! "nccl_error_codes" = None ->
  entry !! "multi_error_codes" = None ->
  entry_codes entry = Return (VList []).
Proof.
  intros H1 H2 H3. unfold entry_codes, get. rewrite H1, H2, H3. reflexivity.
Qed.

End GhrFacts.

(** ** Claims about the recovery of one node *)

Module Recovery.
Import Py Runner.

(** C8 (the code fails the claim here).  On a compute node, when the NHC
    script runs into its timeout, cannot be run, or exits with a non-zero
    code, the GPU probe returns a failed outcome whose list of error codes
    is empty: nothing is raised, but no adapter-specific code is carried
    either. *)
Theorem gpu_adapter_failure_carries_no_code :
  Forall (fun run =>
            let '(ok, detail, physical, vmname) :=
              run_gpu_health_check Scenario.compute_node run in
            ok = false /\ get detail "nhc_error_codes" VNone = VList [])
         [NhcTimeout; NhcFault; NhcExit 1 None].
Proof. repeat constructor. Qed.

(** C9.  Every result written by the final save of a run has
    initial_returncode 0, whatever the probes did on any pass; the results
    written before a reboot, and only they, have initial_returncode 1. *)
Theorem final_save_initial_returncode_zero cfg env imds probes previous st :
  exists new,
    saved (main cfg env imds probes previous st).2 = saved st ++ new /\
    Forall (fun kd =>
              kd.2 !! "initial_returncode"
              = Some (VInt match kd.1 with
                           | Final => 0
                           | Intermediate => 1
                           end)) new.
Proof.
  unfold main.
  destruct (int_of_str (default "0" (MAX_REBOOT_COUNT env))) as [MAXR|].
  - match goal with |- context [loop ?c ?e ?m ?i ?p ?f ?it ?rc ?s] =>
      destruct (RunnerFacts.loop_saved c e m i p f it rc s) as (new & Hs & Hall & _)
    end.
    exists new. split; [exact Hs|].
    eapply Forall_impl; [exact Hall|].
    intros [[] d] (Hi & _); exact Hi.
  - exists []. rewrite app_nil_r. split; [reflexivity | constructor].
Qed.

(** C4.  With a maximum reboot count [M]: a worker of the coordinator
    reboots its node at most [M] times; a run of the node's check that
    starts with a reboot count between 0 and [M] ends, asks for at most [M]
    reboots, and writes no result with a reboot count above [M]; and when
    reboots are enabled, every pass fails and the resource id can be
    fetched, the run asks for the reboots that are left and finishes with a
    result that has final_returncode 1 and reboot_count [M]. *)
Theorem reboots_bounded (M : Z) :
  0 <= M ->
  (forall cfg node w,
     Orchestrator.MAX_REBOOT_COUNT cfg = M ->
     (Orchestrator.reboots (Orchestrator.run_check_on_node cfg node w).2
      <= Z.to_nat M)%nat) /\
  (forall cfg env imds probes previous st,
     int_of_str (default "0" (MAX_REBOOT_COUNT env)) = Some M ->
     let r0 := load_reboot_count previous (load_reboot_count (result_file st) 0) in
     0 <= r0 <= M ->
     let run := main cfg env imds probes previous st in
     exists new,
       run.1 <> OutOfFuel /\
       saved run.2 = saved st ++ new /\
       (reboot_requests new <= Z.to_nat M)%nat /\
       Forall (fun kd => exists c,
                 kd.2 !! "reboot_count" = Some (VInt c) /\ 0 <= c <= M) new /\
       (enabled env = true ->
        (exists resource_id, imds = Return resource_id) ->
        (forall i rc, (check_pass cfg (probes i) rc).1 = false) ->
        exists d,
          run.1 = Exited /\
          last new = Some (Final, d) /\
          result_file run.2 = Json (VDict d) /\
          reboot_requests new = Z.to_nat (M - r0) /\
          d !! "final_returncode" = Some (VInt 1) /\
          d !! "reboot_count" = Some (VInt M))).
Proof.
  intros HM. split.
  - intros cfg node w <-. apply OrchestratorFacts.worker_reboots_bounded.
  - intros cfg env imds probes previous st HMAX r0 Hr0 run.
    subst run. unfold main. rewrite HMAX. fold r0.
    set (fuel := S (Z.to_nat (M - r0))).
    destruct (RunnerFacts.loop_saved cfg (enabled env) M imds probes fuel 0 r0 st)
      as (new & Hs & Hall & Hn).
    exists new. split; [|split; [exact Hs|split; [lia|split]]].
    + apply RunnerFacts.loop_terminates. subst fuel. lia.
    + eapply Forall_impl; [exact Hall|].
      intros kd (_ & _ & c & Hc & Hb). exists c. split; [exact Hc | lia].
    + intros Hen [rid Hrid] Hfail.
      destruct (RunnerFacts.loop_persistent_failure cfg (enabled env) M imds probes
                  fuel rid Hen Hrid Hfail 0%nat r0 st)
        as (new' & d & st' & Hrun & Hs' & Hfile & Hn' & _ & Hf & Hc);
        [lia | subst fuel; lia |].
      rewrite Hrun in Hs |- *. cbn [fst snd] in *.
      rewrite Hs' in Hs. apply app_inv_head in Hs. subst new.
      exists d. repeat split; try assumption.
      * rewrite last_snoc. reflexivity.
      * rewrite RunnerFacts.reboot_requests_app, Hn'. cbn. lia.
Qed.

(** C4 at work: up to two reboots, a node whose NHC script times out on
    every pass, no earlier result. *)
Lemma reboots_bounded_twice :
  0 <= 2 /\
  let run := main Scenario.compute_node Scenario.reboot_twice (Return "rid")
                  Scenario.nhc_times_out NoFile Scenario.fresh in
  exists new d,
    run.1 = Exited /\
    saved run.2 = new /\
    last new = Some (Final, d) /\
    reboot_requests new = 2%nat /\
    d !! "final_returncode" = Some (VInt 1) /\
    d !! "reboot_count" = Some (VInt 2).
Proof.
  split; [lia|].
  destruct (reboots_bounded 2 ltac:(lia)) as [_ H].
  destruct (H Scenario.compute_node Scenario.reboot_twice (Return "rid")
              Scenario.nhc_times_out NoFile Scenario.fresh)
    as (new & _ & Hs & _ & _ & Hfin).
  - reflexivity.
  - cbn. lia.
  - destruct Hfin as (d & He & Hl & _ & Hn & Hf & Hc).
    + reflexivity.
    + eexists. reflexivity.
    + intros i rc. reflexivity.
    + exists new, d. repeat split; assumption.
Defined.

End Recovery.

(** ** Claims about the fleet coordinator *)

Module Fleet.
Import Py Orchestrator.

(** C1.  With a positive number of workers, the coordinator returns one
    result per submitted node, whatever the worker runs meet and in whatever
    order they complete: as many results as nodes, which are, up to their
    order, the entries of the nodes; and the "node" entries of the results
    are the node names, as long as no result file names another node than
    the one it is stored for. *)
Theorem one_result_per_node cfg nodes worlds sched :
  0 < MAX_PARALLEL cfg ->
  exists results,
    collect_results cfg nodes worlds sched = Return results /\
    length results = length nodes /\
    results ≡ₚ imap (node_result cfg worlds) nodes /\
    ((forall i node, nodes !! i = Some node ->
                     names_its_node node (result_json (worlds i))) ->
     (fun d : dict => d !! "node") <$> results
     ≡ₚ (fun node => Some (VStr node)) <$> nodes).
Proof.
  intros HP.
  destruct (OrchestratorFacts.collect_results_spec cfg nodes worlds sched HP)
    as (results & Hrun & Hperm).
  exists results. split; [exact Hrun|]. split; [|split; [exact Hperm|]].
  - rewrite Hperm, length_imap. reflexivity.
  - intros Hnames. rewrite Hperm.
    assert ((fun d : dict => d !! "node") <$> imap (node_result cfg worlds) nodes
            = (fun node => Some (VStr node)) <$> nodes) as ->; [|reflexivity].
    apply list_eq. intros i.
    rewrite !list_lookup_fmap, list_lookup_imap.
    destruct (nodes !! i) as [node|] eqn:E; [|reflexivity].
    cbn. f_equal. apply OrchestratorFacts.node_result_node. by apply Hnames.
Qed.

(** C1 for three nodes, of which one hangs and one leaves no result file. *)
Lemma one_result_per_node_fleet :
  0 < MAX_PARALLEL Scenario.fleet /\
  exists results,
    main Scenario.fleet Scenario.fleet_worlds Scenario.last_first = Return results /\
    length results = 3%nat /\
    (fun d : dict => d !! "node") <$> results
    ≡ₚ [Some (VStr "hpc-1"); Some (VStr "hpc-2"); Some (VStr "hpc-3")].
Proof.
  split; [reflexivity|].
  destruct (one_result_per_node Scenario.fleet (get_nodes Scenario.fleet)
              Scenario.fleet_worlds Scenario.last_first)
    as (results & Hrun & Hlen & _ & Hnodes); [reflexivity|].
  exists results. split; [exact Hrun|]. split; [exact Hlen|].
  apply Hnodes. intros [|[|[|i]]] node; cbn; intros [= <-]; cbn; auto.
Defined.

(** C2.  A worker run that fails internally, by an exception or for want of
    a result file, is collected as an entry with both return codes 255 and
    an error text, for the node it was submitted for; and the entry of any
    node is collected whatever the runs of the other nodes do. *)
Theorem fault_becomes_fallback cfg nodes worlds sched :
  0 < MAX_PARALLEL cfg ->
  exists results,
    collect_results cfg nodes worlds sched = Return results /\
    (forall i node,
       nodes !! i = Some node ->
       faulted cfg node (worlds i) ->
       exists d msg,
         d ∈ results /\
         d = node_result cfg worlds i node /\
         d !! "node" = Some (VStr node) /\
         d !! "initial_returncode" = Some (VInt 255) /\
         d !! "final_returncode" = Some (VInt 255) /\
         d !! "error" = Some (VStr msg)) /\
    (forall j node worlds',
       nodes !! j = Some node ->
       worlds' j = worlds j ->
       node_result cfg worlds' j node ∈ results).
Proof.
  intros HP.
  destruct (OrchestratorFacts.collect_results_spec cfg nodes worlds sched HP)
    as (results & Hrun & Hperm).
  exists results. split; [exact Hrun|]. split.
  - intros i node Hi Hf.
    destruct (OrchestratorFacts.faulted_result cfg worlds i node Hf)
      as (Hn & Hi0 & Hf0 & msg & Hmsg).
    exists (node_result cfg worlds i node), msg.
    repeat split; try assumption.
    rewrite Hperm. by apply OrchestratorFacts.elem_of_imap_lookup.
  - intros j node worlds' Hj Hw. rewrite Hperm.
    replace (node_result cfg worlds' j node) with (node_result cfg worlds j node)
      by (unfold node_result; rewrite Hw; reflexivity).
    by apply OrchestratorFacts.elem_of_imap_lookup.
Qed.

(** C2 for the node whose check hangs: its fallback is collected, and so is
    the result of the clean node. *)
Lemma fault_becomes_fallback_fleet :
  0 < MAX_PARALLEL Scenario.fleet /\
  exists results d msg,
    main Scenario.fleet Scenario.fleet_worlds Scenario.last_first = Return results /\
    d ∈ results /\
    d !! "node" = Some (VStr "hpc-2") /\
    d !! "initial_returncode" = Some (VInt 255) /\
    d !! "final_returncode" = Some (VInt 255) /\
    d !! "error" = Some (VStr msg) /\
    node_result Scenario.fleet Scenario.fleet_worlds 0 "hpc-1" ∈ results.
Proof.
  split; [reflexivity|].
  destruct (fault_becomes_fallback Scenario.fleet (get_nodes Scenario.fleet)
              Scenario.fleet_worlds Scenario.last_first)
    as (results & Hrun & Hfault & Hother); [reflexivity|].
  destruct (Hfault 1%nat "hpc-2") as (d & msg & Hin & _ & Hn & Hi & Hf & He).
  - reflexivity.
  - left. eexists. reflexivity.
  - exists results, d, msg. repeat split; try assumption.
    apply (Hother 0%nat "hpc-1" Scenario.fleet_worlds); reflexivity.
Defined.

End Fleet.
(** ** Claims about the escalation submitter *)

Module Escalation.
Import Py Ghr.

(** *** Results of the runner *)

(** The submitter reads no code from a result the runner has written: the
    runner puts its codes under "error_codes", the submitter looks under
    "nhc_error_codes", "nccl_error_codes" and "multi_error_codes". *)
Lemma runner_result_yields_no_code cfg env imds probes previous st :
  exists new,
    Runner.saved (Runner.main cfg env imds probes previous st).2
    = Runner.saved st ++ new /\
    Forall (fun kd => entry_codes kd.2 = Return (VList [])) new.
Proof.
  unfold Runner.main.
  destruct (int_of_str (default "0" (Runner.MAX_REBOOT_COUNT env))) as [MAXR|].
  - match goal with |- context [Runner.loop ?c ?e ?m ?i ?p ?f ?it ?rc ?s] =>
      destruct (RunnerFacts.loop_saved_code_keys c e m i p f it rc s)
        as (new & Hs & Hall) end.
    exists new. split; [exact Hs|].
    eapply Forall_impl; [exact Hall|]. intros kd Hk.
    apply GhrFacts.no_code_keys_no_codes; apply Hk; set_solver.
  - exists []. rewrite app_nil_r. split; [reflexivity | constructor].
Qed.

(** *** The batch *)

(** C3 (the code fails the claim).  A compute node whose NHC log reports a
    missing GPU on every pass ends, after the two reboots it is allowed,
    with a final result that carries the code NHC2009 under "error_codes"
    and final_returncode 1.  Handed that result, the loop that collects the
    failed nodes finds none, because it reads the codes under three other
    keys; and the submitter does not get as far as that loop: it raises at
    its first statement, so no batch is built and nothing is submitted. *)
Theorem failed_node_is_not_batched :
  exists d st,
    Runner.main Scenario.compute_node Scenario.reboot_twice (Return "rid")
                Scenario.nhc_reports_failure Runner.NoFile Scenario.fresh
    = (Runner.Exited, st) /\
    last (Runner.saved st) = Some (Runner.Final, d) /\
    Scenario.failed_node_results = [d] /\
    d !! "node" = Some (VStr "hpc-1") /\
    d !! "error_codes" = Some (strs ["NHC2009"]) /\
    d !! "final_returncode" = Some (VInt 1) /\
    extract_failed [d] [] = Return [] /\
    run_ghr_if_needed Scenario.escalation Scenario.service_up [d] Scenario.no_log
    = (Raise not_a_tzinfo,
       {| reads := 1; calls := 0; log := None; events := [] |}).
Proof.
  eexists _, _. split; [vm_compute; reflexivity|].
  split; [reflexivity|].
  repeat split; vm_compute; reflexivity.
Qed.

(** *** Retries and records *)

(** C5 (the code fails the claim).  With the intake service down and three
    attempts allowed, a run that is handed the result of a failed node
    raises a TypeError to its caller after it has read the clock once: it
    makes no request, sleeps for no delay and appends no record.  This is
    so for every run, whatever it is handed.  The retry loop, were it
    reached, would raise in the same way at the start of its first turn,
    before the request; and recording an attempt raises before the log is
    opened. *)
Theorem submitter_raises_without_attempt :
  run_ghr_if_needed Scenario.escalation Scenario.service_down
                    Scenario.failed_node_results Scenario.no_log
  = (Raise not_a_tzinfo, {| reads := 1; calls := 0; log := None; events := [] |}) /\
  (forall cfg w all_results s,
     run_ghr_if_needed cfg w all_results s = (Raise not_a_tzinfo, after_reads 1 s)) /\
  (forall cfg w payload failed_nodes attempt todo s,
     attempts cfg w payload failed_nodes (attempt :: todo) s
     = (Raise not_a_tzinfo, after_reads 1 s)) /\
  (forall w status request_id nodes s,
     record_ghr_log w status request_id nodes s
     = (Raise not_a_tzinfo, after_reads 2 s)).
Proof.
  split; [reflexivity|]. split; [|split].
  - apply GhrFacts.run_ghr_if_needed_run.
  - apply GhrFacts.attempts_run.
  - apply GhrFacts.record_ghr_log_run.
Qed.

(** *** The deduplication window *)

(** C6 (the code fails the claim).  Without a log, and with a log whose
    only success is two days old, the check for a recent success answers
    False for a window of 24 hours; with a success that is an hour old
    (after an older one and a malformed line) it answers True.  But a run
    does not get as far as the check: in all three cases, with escalation
    enabled, it raises at its first statement; it neither goes on to submit
    nor reports that it skips, and it leaves the log as it is. *)
Theorem dedup_check_is_never_reached :
  let hours := GHR_SKIP_HOURS Scenario.escalation in
  ((has_recent_success Scenario.service_up hours Scenario.no_log).1 = Return false /\
   (has_recent_success Scenario.service_up hours Scenario.old_log).1 = Return false /\
   (has_recent_success Scenario.service_up hours Scenario.recent_log).1 = Return true) /\
  Forall (fun s =>
            ENABLE_GHR Scenario.escalation = true /\
            run_ghr_if_needed Scenario.escalation Scenario.service_up
                              Scenario.failed_node_results s
            = (Raise not_a_tzinfo,
               {| reads := 1; calls := 0; log := log s; events := [] |}))
         [Scenario.no_log; Scenario.old_log; Scenario.recent_log].
Proof.
  cbv zeta. split.
  - repeat split; vm_compute; reflexivity.
  - repeat constructor.
Qed.

(** *** Request identifiers *)


(** *** A passing node with a code *)

(** C10 (the code fails the last part of the claim).  On a scheduler on
    which [nvidia-smi -L] lists nothing and which is the only node, the
    single-node probe passes with bandwidth 0.0 and the code NCCL1001; the
    final result carries that code under "error_codes" with both return
    codes 0.  Handed that result, the loop that collects the failed nodes
    finds none, because it reads the codes under three other keys; and the
    submitter raises at its first statement, before that loop: the node is
    not placed in any failure set. *)
Theorem passing_node_with_code_is_not_escalated :
  Runner.run_nccl_test Scenario.scheduler (Runner.Listing []) Runner.BenchRaised
  = (Some true, Some 0%float, ["NCCL1001"]) /\
  exists d st,
    Runner.main Scenario.scheduler Scenario.reboot_twice (Return "rid")
                Scenario.no_gpus Runner.NoFile Scenario.fresh
    = (Runner.Exited, st) /\
    Runner.saved st = [(Runner.Final, d)] /\
    d !! "error_codes" = Some (strs ["NCCL1001"]) /\
    d !! "initial_returncode" = Some (VInt 0) /\
    d !! "final_returncode" = Some (VInt 0) /\
    extract_failed [d] [] = Return [] /\
    run_ghr_if_needed Scenario.escalation Scenario.service_up [d] Scenario.no_log
    = (Raise not_a_tzinfo,
       {| reads := 1; calls := 0; log := None; events := [] |}).
Proof.
  split; [reflexivity|].
  eexists _, _. split; [vm_compute; reflexivity|].
  split; [reflexivity|].
  repeat split; vm_compute; reflexivity.
Qed.

End Escalation.
(** * Further properties *)

(** ** The per-node loop and its probes *)

Module RunnerProps.
Import Py Runner RunnerFacts.

Lemma last_cons_nonempty {A} (x : A) (l : list A) :
  l <> [] -> last (x :: l) = last l.
Proof. destruct l; [congruence | reflexivity]. Qed.

Section Loop.
Variables (cfg : config) (ENABLE : bool) (MAXR : Z) (imds : outcome string).
Variable probes : nat -> probe_inputs.

Local Abbreviation run := (loop cfg ENABLE MAXR imds probes).

(** What one run of the loop leaves behind: results that ask for a reboot,
    with the counts that follow the count the loop started with, then at
    most one final result, which is there exactly when the loop returns. *)
Lemma loop_shape fuel : forall iteration reboot_count st,
  exists prev fin,
    saved (run fuel iteration reboot_count st).2 = saved st ++ prev ++ fin /\
    (forall i kd, prev !! i = Some kd ->
       kd.1 = Intermediate /\
       kd.2 !! "reboot_count" = Some (VInt (reboot_count + 1 + Z.of_nat i)) /\
       kd.2 !! "initial_returncode" = Some (VInt 1) /\
       kd.2 !! "final_returncode" = Some (VInt 0)) /\
    match fin with
    | [] => (run fuel iteration reboot_count st).1 <> Exited
    | [(Final, d)] =>
        (run fuel iteration reboot_count st).1 = Exited /\
        (exists resource_id, imds = Return resource_id) /\
        d !! "reboot_count" = Some (VInt (reboot_count + Z.of_nat (length prev))) /\
        d !! "initial_returncode" = Some (VInt 0) /\
        (d !! "final_returncode" = Some (VInt 0) \/
         d !! "final_returncode" = Some (VInt 1))
    | _ => False
    end /\
    result_file (run fuel iteration reboot_count st).2
    = match last (prev ++ fin) with
      | Some kd => Json (VDict kd.2)
      | None => result_file st
      end /\
    reboot_required (run fuel iteration reboot_count st).2
    = reboot_required st || nonempty prev.
Proof.
  induction fuel as [|fuel IH]; intros it rc st; cbn [loop].
  - exists [], []. cbn. rewrite app_nil_r, orb_false_r.
    repeat split; try done.
  - pose proof (check_pass_initial cfg (probes (S it)) rc) as Hi.
    pose proof (check_pass_final cfg (probes (S it)) rc) as Hf.
    destruct (check_pass cfg (probes (S it)) rc) as [overall result].
    cbn [fst snd] in Hi, Hf.
    destruct (negb overall && ENABLE && (rc <? MAXR)) eqn:Hgo.
    + apply andb_prop in Hgo as [Hgo _]. apply andb_prop in Hgo as [Hov _].
      apply negb_true_iff in Hov. subst overall.
      set (x := (Intermediate, <["reboot_count" := VInt (rc + 1)]> result)).
      match goal with |- context [run fuel (S it) (rc + 1) ?s] =>
        destruct (IH (S it) (rc + 1) s) as (prev & fin & Hs & Hprev & Hfin & Hfile & Hflag)
      end.
      exists (x :: prev), fin. split; [|split; [|split; [|split]]].
      * rewrite Hs. cbn [saved save_result touch_reboot_required].
        rewrite <- !app_assoc. reflexivity.
      * intros [|i] kd Hkd.
        -- injection Hkd as <-. subst x. cbn [fst snd].
           rewrite Z.add_0_r. lookup_ins. auto.
        -- destruct (Hprev i kd Hkd) as (? & Hc & ? & ?).
           repeat split; try assumption.
           rewrite Hc. do 2 f_equal. lia.
      * destruct fin as [|[[|] d] [|? ?]]; try assumption.
        destruct Hfin as (? & ? & Hc & ? & ?).
        split; [assumption|]. split; [assumption|].
        split; [|split; assumption].
        rewrite Hc. do 2 f_equal. cbn [length]. lia.
      * rewrite Hfile. cbn [result_file save_result touch_reboot_required].
        destruct (prev ++ fin) as [|y l] eqn:E.
        -- cbn [app]. rewrite E. reflexivity.
        -- cbn [app]. rewrite E. rewrite (last_cons_nonempty x (y :: l)) by done.
           destruct (last (y :: l)) eqn:EL; [reflexivity|].
           apply last_None in EL. discriminate EL.
      * rewrite Hflag. cbn [reboot_required save_result touch_reboot_required nonempty].
        rewrite orb_true_r. reflexivity.
    + destruct imds as [rid|e]; cbn [fst snd].
      * eexists [], [(Final, _)]. cbn [app length nonempty last].
        rewrite orb_false_r, Z.add_0_r.
        split; [reflexivity|]. split; [intros ? ? [=]|].
        split; [|split; reflexivity].
        split; [reflexivity|]. split; [eauto|].
        lookup_ins. split; [reflexivity|]. split; [reflexivity|].
        destruct overall; auto.
      * exists [], []. cbn. rewrite app_nil_r, orb_false_r.
        repeat split; try done.
Qed.

(** Whatever the loop saves is the result of one of its passes, up to the
    four entries it sets afterwards. *)
Lemma loop_saved_pass fuel : forall iteration reboot_count st,
  exists new,
    saved (run fuel iteration reboot_count st).2 = saved st ++ new /\
    Forall (fun kd : save_kind * dict =>
              exists i rc, forall k,
                k ∉ ["reboot_count"; "initial_returncode"; "final_returncode";
                     "impactedResourceId"] ->
                kd.2 !! k = (check_pass cfg (probes i) rc).2 !! k) new.
Proof.
  induction fuel as [|fuel IH]; intros it rc st; cbn [loop].
  - exists []. rewrite app_nil_r. split; [reflexivity | constructor].
  - destruct (check_pass cfg (probes (S it)) rc) as [overall result] eqn:Hpass.
    assert (result = (check_pass cfg (probes (S it)) rc).2) as Hres
      by (rewrite Hpass; reflexivity).
    destruct (negb overall && ENABLE && (rc <? MAXR)).
    + match goal with |- context [run fuel (S it) (rc + 1) ?s] =>
        destruct (IH (S it) (rc + 1) s) as (new & Hs & Hall) end.
      eexists (_ :: new). split.
      * rewrite Hs. cbn [saved save_result touch_reboot_required].
        rewrite <- app_assoc. reflexivity.
      * constructor; [|exact Hall]. exists (S it), rc. intros k Hk. cbn [snd].
        rewrite lookup_insert_ne by (intros <-; apply Hk; set_solver).
        rewrite Hres. reflexivity.
    + destruct imds as [rid|e]; cbn [snd].
      * eexists [_]. split; [reflexivity|]. constructor; [|constructor].
        exists (S it), rc. intros k Hk. cbn [snd].
        rewrite !lookup_insert_ne by (intros <-; apply Hk; set_solver).
        rewrite Hres. reflexivity.
      * exists []. rewrite app_nil_r. split; [reflexivity | constructor].
Qed.

End Loop.

(** The same for a run of [main]. *)
Lemma main_saved_pass cfg env imds probes previous st :
  exists new,
    saved (main cfg env imds probes previous st).2 = saved st ++ new /\
    Forall (fun kd : save_kind * dict =>
              exists i rc, forall k,
                k ∉ ["reboot_count"; "initial_returncode"; "final_returncode";
                     "impactedResourceId"] ->
                kd.2 !! k = (check_pass cfg (probes i) rc).2 !! k) new.
Proof.
  unfold main.
  destruct (int_of_str (default "0" (MAX_REBOOT_COUNT env))) as [MAXR|].
  - apply loop_saved_pass.
  - exists []. rewrite app_nil_r. split; [reflexivity | constructor].
Qed.

(** The shape of what a run of [main] saves. *)
Lemma main_shape cfg env imds probes previous st :
  exists prev fin,
    saved (main cfg env imds probes previous st).2 = saved st ++ prev ++ fin /\
    Forall (fun kd : save_kind * dict =>
              kd.1 = Intermediate /\
              kd.2 !! "initial_returncode" = Some (VInt 1) /\
              kd.2 !! "final_returncode" = Some (VInt 0)) prev /\
    Forall (fun kd : save_kind * dict =>
              kd.1 = Final /\
              kd.2 !! "initial_returncode" = Some (VInt 0) /\
              (kd.2 !! "final_returncode" = Some (VInt 0) \/
               kd.2 !! "final_returncode" = Some (VInt 1))) fin.
Proof.
  unfold main.
  destruct (int_of_str (default "0" (MAX_REBOOT_COUNT env))) as [MAXR|].
  - match goal with |- context [loop ?c ?E ?M ?i ?p ?f ?it ?rc ?s] =>
      destruct (loop_shape c E M i p f it rc s)
        as (prev & fin & Hs & Hprev & Hfin & _)
    end.
    exists prev, fin. split; [exact Hs|]. split.
    + apply Forall_lookup_2. intros i kd Hkd.
      destruct (Hprev i kd Hkd) as (? & _ & ? & ?). auto.
    + destruct fin as [|[[|] d] [|? ?]]; try contradiction; [constructor|].
      destruct Hfin as (_ & _ & _ & ? & ?).
      constructor; [|constructor]. cbn [fst snd]. auto.
  - exists [], []. rewrite !app_nil_r. repeat split; constructor.
Qed.

(** X1.  What any run of [main] leaves behind: it appends to the history
    first the results that ask for a reboot and then at most one final
    result, which is there exactly when the run returns; the result file
    holds the result written last (it is untouched when nothing was
    written); and the reboot flag is set exactly when it was set before or
    a reboot was asked for: the run never clears it. *)
Theorem run_history cfg env imds probes previous st :
  let run := main cfg env imds probes previous st in
  exists prev fin,
    saved run.2 = saved st ++ prev ++ fin /\
    Forall (fun kd => kd.1 = Intermediate) prev /\
    (fin = [] \/ exists d, fin = [(Final, d)]) /\
    (run.1 = Exited <-> fin <> []) /\
    result_file run.2
    = match last (prev ++ fin) with
      | Some kd => Json (VDict kd.2)
      | None => result_file st
      end /\
    reboot_required run.2 = reboot_required st || nonempty prev.
Proof.
  unfold main.
  destruct (int_of_str (default "0" (MAX_REBOOT_COUNT env))) as [MAXR|].
  - match goal with |- context [loop ?c ?E ?M ?i ?p ?f ?it ?rc ?s] =>
      destruct (loop_shape c E M i p f it rc s)
        as (prev & fin & Hs & Hprev & Hfin & Hfile & Hflag)
    end.
    exists prev, fin. cbv zeta.
    split; [exact Hs|]. split.
    { apply Forall_lookup_2. intros i kd Hkd. apply (Hprev i kd Hkd). }
    split; [|split; [|split; assumption]].
    + destruct fin as [|[[|] d] [|? ?]]; try contradiction; eauto.
    + destruct fin as [|[[|] d] [|? ?]]; try contradiction.
      * split; [intros H; contradiction | intros H; now contradiction H].
      * destruct Hfin as [-> _]. split; [discriminate | reflexivity].
  - exists [], []. cbn. rewrite app_nil_r, orb_false_r.
    split; [reflexivity|]. split; [constructor|]. split; [by left|].
    split; [|split; reflexivity].
    split; [discriminate | intros H; now contradiction H].
Qed.

(** X2.  When the resource id cannot be fetched, no run of [main] returns:
    an exception escapes it, and no final result is written.  What it has
    written by then are results that ask for a reboot, so the result file,
    if the run has touched it, holds a result with initial_returncode 1 and
    final_returncode 0. *)
Theorem unreachable_metadata_leaves_no_final_result cfg env e probes previous st :
  let run := main cfg env (Raise e) probes previous st in
  (exists e', run.1 = Crashed e') /\
  exists new,
    saved run.2 = saved st ++ new /\
    Forall (fun kd => kd.1 = Intermediate) new /\
    match last new with
    | Some kd =>
        result_file run.2 = Json (VDict kd.2) /\
        kd.2 !! "initial_returncode" = Some (VInt 1) /\
        kd.2 !! "final_returncode" = Some (VInt 0)
    | None => result_file run.2 = result_file st
    end.
Proof.
  cbv zeta. split.
  - pose proof (main_terminates cfg env (Raise e) probes previous st) as Hfuel.
    unfold main in *.
    destruct (int_of_str (default "0" (MAX_REBOOT_COUNT env))) as [MAXR|]; [|eauto].
    match goal with |- context [loop ?c ?E ?M ?i ?p ?f ?it ?rc ?s] =>
      destruct (loop_shape c E M i p f it rc s)
        as (prev & fin & _ & _ & Hfin & _);
      destruct (loop c E M i p f it rc s) as [[| e' |] st']
    end; cbn [fst] in *; [|eauto|congruence].
    destruct fin as [|[[|] d] [|? ?]]; try contradiction.
    destruct Hfin as (_ & [rid [=]] & _).
  - unfold main.
    destruct (int_of_str (default "0" (MAX_REBOOT_COUNT env))) as [MAXR|].
    + match goal with |- context [loop ?c ?E ?M ?i ?p ?f ?it ?rc ?s] =>
        destruct (loop_shape c E M i p f it rc s)
          as (prev & fin & Hs & Hprev & Hfin & Hfile & _)
      end.
      destruct fin as [|[[|] d] [|? ?]]; try contradiction.
      2:{ destruct Hfin as (_ & [rid [=]] & _). }
      rewrite app_nil_r in Hs, Hfile. exists prev.
      split; [exact Hs|]. split.
      { apply Forall_lookup_2. intros i kd Hkd. apply (Hprev i kd Hkd). }
      destruct (last prev) as [kd|] eqn:El; [|exact Hfile].
      split; [exact Hfile|].
      rewrite last_lookup in El. apply Hprev in El. tauto.
    + exists []. cbn. rewrite app_nil_r. repeat split; constructor.
Qed.

(** X3.  When reboots are not enabled, or the reboot count the run starts
    with has reached the maximum, and the resource id can be fetched, the
    run makes one pass only: it returns after writing one final result,
    with final_returncode 0 or 1 as that pass passed or failed and the
    reboot count it started with, and it does not touch the reboot flag. *)
Theorem single_pass_without_reboot cfg env probes previous st resource_id MAXR :
  int_of_str (default "0" (MAX_REBOOT_COUNT env)) = Some MAXR ->
  let r0 := load_reboot_count previous (load_reboot_count (result_file st) 0) in
  enabled env = false \/ MAXR <= r0 ->
  exists d,
    main cfg env (Return resource_id) probes previous st
    = (Exited, save_result Final d st) /\
    d !! "initial_returncode" = Some (VInt 0) /\
    d !! "final_returncode"
    = Some (VInt (if (check_pass cfg (probes 1%nat) r0).1 then 0 else 1)) /\
    d !! "reboot_count" = Some (VInt r0) /\
    d !! "impactedResourceId" = Some (VStr resource_id).
Proof.
  intros HM r0 Hno. unfold main. rewrite HM. fold r0. cbn [loop].
  destruct (check_pass cfg (probes 1%nat) r0) as [overall result]. cbn [fst].
  assert (negb overall && enabled env && (r0 <? MAXR) = false) as ->.
  { destruct Hno as [-> | Hle].
    - rewrite andb_false_r. reflexivity.
    - apply andb_false_iff. right. apply Z.ltb_ge. exact Hle. }
  eexists. split; [reflexivity|].
  repeat split; lookup_ins; reflexivity.
Qed.

(** X3 on a node whose NHC script times out, with reboots switched off. *)
Lemma single_pass_without_reboot_switched_off :
  (int_of_str (default "0" (MAX_REBOOT_COUNT Cases.no_reboot)) = Some 2 /\
   (enabled Cases.no_reboot = false \/
    2 <= load_reboot_count NoFile (load_reboot_count (result_file Scenario.fresh) 0))) /\
  exists d,
    main Scenario.compute_node Cases.no_reboot (Return "rid")
         Scenario.nhc_times_out NoFile Scenario.fresh
    = (Exited, save_result Final d Scenario.fresh) /\
    d !! "final_returncode" = Some (VInt 1) /\
    d !! "reboot_count" = Some (VInt 0).
Proof.
  assert (int_of_str (default "0" (MAX_REBOOT_COUNT Cases.no_reboot)) = Some 2) as HM
    by reflexivity.
  assert (enabled Cases.no_reboot = false \/
          2 <= load_reboot_count NoFile (load_reboot_count (result_file Scenario.fresh) 0))
    as Hno by (left; reflexivity).
  split; [split; assumption|].
  destruct (single_pass_without_reboot Scenario.compute_node Cases.no_reboot
              Scenario.nhc_times_out NoFile Scenario.fresh "rid" 2 HM Hno)
    as (d & Hrun & _ & Hf & Hc & _).
  exists d. split; [exact Hrun|]. split; [exact Hf | exact Hc].
Defined.

(** *** Restarts *)

Lemma reboot_requests_intermediate prev :
  Forall (fun kd : save_kind * dict => kd.1 = Intermediate) prev ->
  reboot_requests prev = length prev.
Proof.
  unfold reboot_requests. induction 1 as [|kd l Hkd _ IH]; [reflexivity|].
  cbn [List.filter]. rewrite Hkd. cbn [is_intermediate length]. congruence.
Qed.

(** The count a run reads from a result it finds. *)
Lemma load_reboot_count_saved (d : dict) c current :
  d !! "reboot_count" = Some (VInt c) ->
  load_reboot_count (Json (VDict d)) current = c.
Proof. intros H. cbn. unfold get. rewrite H. reflexivity. Qed.

Lemma load_reboot_count_twice f : 
  load_reboot_count f (load_reboot_count f 0) = load_reboot_count f 0.
Proof. destruct f as [| |[]]; reflexivity. Qed.

(** The requests of one run, and the count the next run starts with. *)
Lemma run_requests cfg env imds probes st M :
  int_of_str (default "0" (MAX_REBOOT_COUNT env)) = Some M ->
  let r0 := load_reboot_count (result_file st) 0 in
  let run := main cfg env imds probes (result_file st) st in
  exists new,
    saved run.2 = saved st ++ new /\
    (reboot_requests new <= Z.to_nat (M - r0))%nat /\
    load_reboot_count (result_file run.2) 0 = r0 + Z.of_nat (reboot_requests new).
Proof.
  intros HM r0 run. subst run. unfold main. rewrite HM.
  rewrite load_reboot_count_twice. fold r0.
  match goal with |- context [loop ?c ?E ?M ?i ?p ?f ?it ?rc ?s] =>
    destruct (loop_shape c E M i p f it rc s)
      as (prev & fin & Hs & Hprev & Hfin & Hfile & _);
    destruct (loop_saved c E M i p f it rc s) as (new & Hs' & _ & Hn)
  end.
  assert (new = prev ++ fin) as ->.
  { rewrite Hs in Hs'. apply app_inv_head in Hs'. congruence. }
  exists (prev ++ fin). split; [exact Hs|]. split; [exact Hn|].
  assert (Forall (fun kd : save_kind * dict => kd.1 = Intermediate) prev) as Hint.
  { apply Forall_lookup_2. intros i kd Hkd. apply (Hprev i kd Hkd). }
  rewrite Hfile, reboot_requests_app, (reboot_requests_intermediate _ Hint).
  destruct fin as [|[[|] d] [|? ?]]; try contradiction.
  - rewrite app_nil_r. cbn [reboot_requests List.filter length]. rewrite Nat.add_0_r.
    destruct (last prev) as [kd|] eqn:El.
    + rewrite last_lookup in El. pose proof (lookup_lt_Some _ _ _ El) as Hlt.
      apply Hprev in El as (_ & Hc & _).
      rewrite (load_reboot_count_saved _ _ _ Hc). lia.
    + apply last_None in El. subst prev. cbn [length]. fold r0. lia.
  - destruct Hfin as (_ & _ & Hc & _).
    rewrite last_snoc. cbn [snd].
    rewrite (load_reboot_count_saved _ _ _ Hc).
    cbn [reboot_requests List.filter length fst is_intermediate]. lia.
Qed.

(** X4.  The reboot budget holds across restarts.  When the runner is
    started again on the files an earlier run has left (the previous result
    being the result file itself, as the coordinator sets it), it starts
    with the count the earlier run stopped at, and the reboots the two runs
    ask for are together no more than what the first was allowed. *)
Theorem reboot_budget_across_restarts cfg env imds probes imds' probes' st M :
  int_of_str (default "0" (MAX_REBOOT_COUNT env)) = Some M ->
  let r0 := load_reboot_count (result_file st) 0 in
  let run1 := main cfg env imds probes (result_file st) st in
  let run2 := main cfg env imds' probes' (result_file run1.2) run1.2 in
  exists new1 new2,
    saved run1.2 = saved st ++ new1 /\
    saved run2.2 = saved run1.2 ++ new2 /\
    load_reboot_count (result_file run1.2) 0 = r0 + Z.of_nat (reboot_requests new1) /\
    (reboot_requests new1 + reboot_requests new2 <= Z.to_nat (M - r0))%nat.
Proof.
  intros HM r0 run1 run2.
  destruct (run_requests cfg env imds probes st M HM) as (new1 & Hs1 & Hn1 & Hc1).
  destruct (run_requests cfg env imds' probes' run1.2 M HM) as (new2 & Hs2 & Hn2 & _).
  fold run1 in Hs1, Hc1, Hs2, Hn2. fold r0 in Hn1, Hc1.
  exists new1, new2. split; [exact Hs1|]. split; [exact Hs2|]. split; [exact Hc1|].
  rewrite Hc1 in Hn2. lia.
Qed.

(** X4 on a node whose NHC script keeps timing out: the first run asks for
    the two reboots allowed, the second for none. *)
Lemma reboot_budget_across_restarts_used_up :
  int_of_str (default "0" (MAX_REBOOT_COUNT Scenario.reboot_twice)) = Some 2 /\
  let run1 := main Scenario.compute_node Scenario.reboot_twice (Return "rid")
                   Scenario.nhc_times_out NoFile Scenario.fresh in
  let run2 := main Scenario.compute_node Scenario.reboot_twice (Return "rid")
                   Scenario.nhc_times_out (result_file run1.2) run1.2 in
  exists new1 new2,
    saved run1.2 = new1 /\
    saved run2.2 = new1 ++ new2 /\
    load_reboot_count (result_file run1.2) 0 = 2 /\
    reboot_requests new1 = 2%nat /\
    reboot_requests new2 = 0%nat.
Proof.
  assert (int_of_str (default "0" (MAX_REBOOT_COUNT Scenario.reboot_twice)) = Some 2)
    as HM by reflexivity.
  split; [exact HM|].
  destruct (reboot_budget_across_restarts Scenario.compute_node Scenario.reboot_twice
              (Return "rid") Scenario.nhc_times_out (Return "rid")
              Scenario.nhc_times_out Scenario.fresh 2 HM)
    as (new1 & new2 & Hs1 & Hs2 & Hc & Hn).
  cbn [Scenario.fresh result_file saved app] in Hs1, Hs2, Hc, Hn.
  assert (reboot_requests new1 = 2%nat) as H1.
  { rewrite <- Hs1. vm_compute. reflexivity. }
  exists new1, new2. cbv zeta.
  split; [exact Hs1|]. split; [rewrite Hs2, Hs1; reflexivity|].
  split; [rewrite Hc, H1; reflexivity|]. split; [exact H1|].
  rewrite H1 in Hn. cbn in Hn. lia.
Defined.

(** *** The probes *)

(** X5.  What the single-node bandwidth probe can answer.  A skip carries
    no bandwidth, and no code but NCCL1002.  A pass carries no code and a
    bandwidth that reaches the threshold, unless no GPU is listed, where it
    carries NCCL1001 and bandwidth 0.0.  A failure carries either bandwidth
    0.0 and codes that end with NCCL1003 or NCCL1005, or a measured
    bandwidth below the threshold and the code NCCL1006 alone. *)
Theorem nccl_outcome cfg g b :
  match run_nccl_test cfg g b with
  | (None, bw, codes) => bw = None /\ (codes = [] \/ codes = ["NCCL1002"])
  | (Some true, bw, codes) =>
      (codes = [] /\
       exists x, bw = Some x /\ (NCCL_BW_THRESHOLD cfg <=? x)%float = true) \/
      (codes = ["NCCL1001"] /\ bw = Some 0%float /\
       exists lines, g = Listing lines /\ remove_dups lines = [])
  | (Some false, bw, codes) =>
      (bw = Some 0%float /\
       (last codes = Some "NCCL1003" \/ last codes = Some "NCCL1005")) \/
      (codes = ["NCCL1006"] /\
       exists x, bw = Some x /\ (NCCL_BW_THRESHOLD cfg <=? x)%float = false)
  end.
Proof.
  unfold run_nccl_test. destruct g as [|lines]; [auto|].
  destruct (remove_dups lines) as [|l0 ls] eqn:Hl.
  - cbn. right. eauto.
  - cbn [length Nat.eqb].
    destruct (S (length ls) <? 8)%nat; [cbn; auto|].
    destruct b as [| |[x|]]; cbn -[PrimFloat.leb]; auto.
    destruct (NCCL_BW_THRESHOLD cfg <=? x)%float eqn:Hx; cbn; eauto 6.
Qed.

Lemma range_length a b : length (range a b) = Z.to_nat (b - a).
Proof. unfold range. rewrite length_fmap, length_seq. reflexivity. Qed.

Ltac multi_case :=
  cbn -[PrimFloat.leb];
  repeat match goal with
         | |- _ /\ _ => split
         | |- _ <-> _ => split
         | |- _ -> _ => intro
         end;
  try done; try lia.

(** X6.  What the multi-node probe can answer.  It names NODE_COUNT nodes.
    It carries no code exactly when it passes, and then its bandwidth
    reaches the threshold.  A skip carries no bandwidth and exactly one of
    the codes NCCL_MULTI1001 to NCCL_MULTI1003; with fewer than two nodes
    the probe is skipped with NCCL_MULTI1001 without asking any node. *)
Theorem nccl_multi_outcome cfg c b :
  let r := run_nccl_multi_node_test cfg c b in
  length (nodes r) = Z.to_nat (NODE_COUNT cfg) /\
  (multi_error_codes r = [] <-> passed r = Some true) /\
  (passed r = Some true ->
   exists x, busbw r = Some x /\ (NCCL_MULTI_BW_THRESHOLD cfg <=? x)%float = true) /\
  (passed r = None ->
   busbw r = None /\
   exists code, multi_error_codes r = [code] /\
     code ∈ ["NCCL_MULTI1001"; "NCCL_MULTI1002"; "NCCL_MULTI1003"]) /\
  (NODE_COUNT cfg < 2 ->
   passed r = None /\ multi_error_codes r = ["NCCL_MULTI1001"]).
Proof.
  cbv zeta. unfold run_nccl_multi_node_test.
  set (ns := (fun i => NODE_PREFIX cfg +:+ "-" +:+ str_of_int i)
               <$> range 1 (NODE_COUNT cfg + 1)).
  assert (length ns = Z.to_nat (NODE_COUNT cfg)) as Hlen.
  { subst ns. rewrite length_fmap, range_length. f_equal. lia. }
  assert (forall qs code, check_gpu_counts qs = Some code ->
            code ∈ ["NCCL_MULTI1001"; "NCCL_MULTI1002"; "NCCL_MULTI1003"]) as Hcodes.
  { induction qs as [|[|n] qs IH]; intros code; cbn; [discriminate| |].
    - intros [= <-]. set_solver.
    - destruct (n <? 8); [intros [= <-]; set_solver | apply IH]. }
  destruct (length ns <? 2)%nat eqn:Hfew.
  { multi_case. eexists. split; [reflexivity | set_solver]. }
  apply Nat.ltb_ge in Hfew.
  destruct (check_gpu_counts (c <$> ns)) as [code|] eqn:Hc.
  { multi_case. exists code. split; [reflexivity | eapply Hcodes, Hc]. }
  destruct b as [| |[x|]]; try (multi_case; fail).
  cbn -[PrimFloat.leb].
  destruct (NCCL_MULTI_BW_THRESHOLD cfg <=? x)%float eqn:Hx; multi_case. eauto.
Qed.

(** *** The codes taken from the NHC log *)

Lemma prefix_app p r : String.prefix p (p +:+ r) = true.
Proof.
  induction p as [|a p IH]; simpl; [destruct r; reflexivity|].
  destruct (ascii_dec a a); [exact IH | congruence].
Qed.

Lemma contains_prefix needle hay :
  String.prefix needle hay = true -> contains needle hay = true.
Proof. intros H. destruct hay; cbn [contains]; rewrite H; reflexivity. Qed.

Lemma contains_cons needle c hay :
  contains needle hay = true -> contains needle (String c hay) = true.
Proof. intros H. cbn [contains]. rewrite H. apply orb_true_r. Qed.

(** A match at the head of [s]: NHC, four digits, and [s] starts with it. *)
Lemma nhc_code_at_shape s code :
  nhc_code_at s = Some code ->
  Notions.nhc_code code /\ String.prefix code s = true.
Proof.
  unfold nhc_code_at.
  destruct s as [|a s]; [discriminate|].
  destruct a as [[] [] [] [] [] [] [] []]; try discriminate.
  destruct s as [|a s]; [discriminate|].
  destruct a as [[] [] [] [] [] [] [] []]; try discriminate.
  destruct s as [|a s]; [discriminate|].
  destruct a as [[] [] [] [] [] [] [] []]; try discriminate.
  destruct s as [|d1 [|d2 [|d3 [|d4 rest]]]]; try discriminate.
  destruct (is_digit d1) eqn:H1; [|discriminate].
  destruct (is_digit d2) eqn:H2; [|discriminate].
  destruct (is_digit d3) eqn:H3; [|discriminate].
  destruct (is_digit d4) eqn:H4; [|discriminate].
  cbn [andb].
  match goal with |- (if ?b then _ else _) = _ -> _ => destruct b end;
    [|discriminate].
  intros [= <-]. split.
  - exists d1, d2, d3, d4. repeat split; assumption.
  - change (String "N" (String "H" (String "C"
              (String d1 (String d2 (String d3 (String d4 rest)))))))
      with (String "N" (String "H" (String "C"
              (String d1 (String d2 (String d3 (String d4 "")))))) +:+ rest).
    apply prefix_app.
Qed.

Lemma findall_from_shape s : forall prev_word code,
  code ∈ findall_from prev_word s ->
  Notions.nhc_code code /\ contains code s = true.
Proof.
  induction s as [|c s IH]; intros pw code; cbn [findall_from].
  - intros H. by apply elem_of_nil in H.
  - destruct (if pw then None else nhc_code_at (String c s)) as [found|] eqn:Hat.
    + intros [-> | Hin]%elem_of_cons.
      * destruct pw; [discriminate|].
        apply nhc_code_at_shape in Hat as [Hshape Hpre].
        split; [exact Hshape | apply contains_prefix, Hpre].
      * apply IH in Hin as [? ?]. split; [assumption | by apply contains_cons].
    + intros Hin. apply IH in Hin as [? ?].
      split; [assumption | by apply contains_cons].
Qed.

Lemma nhc_codes_shape txt code :
  code ∈ findall_nhc txt -> Notions.nhc_code code.
Proof. intros H. apply (findall_from_shape txt false code H). Qed.

(** X7.  Every code the GPU probe takes from the NHC log is the text NHC
    followed by four decimal digits, and occurs in the log. *)
Theorem nhc_codes_come_from_the_log txt code :
  code ∈ findall_nhc txt ->
  Notions.nhc_code code /\ contains code txt = true.
Proof. apply findall_from_shape. Qed.

(** X7 on a log with one failing check. *)
Lemma nhc_codes_come_from_the_log_one_failure :
  "NHC2009" ∈ findall_nhc Cases.failing_log /\
  Notions.nhc_code "NHC2009" /\ contains "NHC2009" Cases.failing_log = true.
Proof.
  assert ("NHC2009" ∈ findall_nhc Cases.failing_log) as Hin.
  { change (findall_nhc Cases.failing_log) with ["NHC2009"].
    apply elem_of_cons. left. reflexivity. }
  split; [exact Hin|].
  exact (nhc_codes_come_from_the_log Cases.failing_log "NHC2009" Hin).
Defined.

(** *** The codes of a result *)

Ltac split_in H :=
  repeat (apply elem_of_cons in H as [H | H]); [.. | by apply elem_of_nil in H].

Lemma gpu_detail_codes cfg run :
  exists codes,
    get (run_gpu_health_check cfg run).1.1.2 "nhc_error_codes" (VList []) = strs codes /\
    Forall Notions.nhc_code codes.
Proof.
  unfold run_gpu_health_check.
  destruct (endswith "-scheduler" (NODE_NAME cfg)); [by exists []|].
  destruct run as [| |rc [txt|]]; try (by exists []);
    destruct (rc =? 0); try (by exists []). cbn [negb].
  destruct (host_names txt) as [physical vmname]. cbn [fst snd].
  exists (findall_nhc txt). split; [reflexivity|].
  apply Forall_forall. intros code Hin.
  apply (nhc_codes_shape txt code Hin).
Qed.

Lemma nccl_codes_kept cfg g b :
  let '(ok, _, codes) := run_nccl_test cfg g b in
  Forall (fun code => code ∈ ["NCCL1001"; "NCCL1003"; "NCCL1004"; "NCCL1005"; "NCCL1006"])
         (if ok is None then [] else codes).
Proof.
  unfold run_nccl_test. destruct g as [|lines]; [constructor|].
  destruct (_ =? 0)%nat; [repeat constructor|].
  destruct (_ <? 8)%nat; [constructor|].
  destruct b as [| |[x|]]; cbn -[PrimFloat.leb];
    try destruct (_ <=? _)%float; cbn;
    repeat (constructor; [set_solver|]); constructor.
Qed.

Lemma nccl_multi_codes_kept cfg c b :
  let r := run_nccl_multi_node_test cfg c b in
  Forall (fun code => code ∈ ["NCCL_MULTI1004"; "NCCL_MULTI1005"; "NCCL_MULTI1006";
                              "NCCL_MULTI1007"])
         (if passed r is None then [] else multi_error_codes r).
Proof.
  cbv zeta. unfold run_nccl_multi_node_test.
  destruct (_ <? 2)%nat; [constructor|].
  destruct (check_gpu_counts _); [constructor|].
  destruct b as [| |[x|]]; cbn -[PrimFloat.leb];
    try destruct (_ <=? _)%float; cbn;
    repeat (constructor; [set_solver|]); constructor.
Qed.

(** X8.  The codes of a skipped probe never reach a result: whatever a
    pass observes, none of NCCL1002, NCCL_MULTI1001, NCCL_MULTI1002 and
    NCCL_MULTI1003 is among the error codes of its result. *)
Theorem skip_codes_never_reach_result cfg inp reboot_count :
  Forall (fun code =>
            VStr code ∉ items (get (check_pass cfg inp reboot_count).2
                                   "error_codes" VNone))
         ["NCCL1002"; "NCCL_MULTI1001"; "NCCL_MULTI1002"; "NCCL_MULTI1003"].
Proof.
  unfold check_pass.
  destruct (gpu_detail_codes cfg (nhc inp)) as (nhc_codes & Hget & Hnhc).
  pose proof (nccl_codes_kept cfg (gpus inp) (single inp)) as Hnccl.
  pose proof (nccl_multi_codes_kept cfg (counts inp) (multi inp)) as Hmulti.
  cbv zeta in Hmulti.
  destruct (run_gpu_health_check _ _) as [[[gpu_ok detail] physical] vmname].
  destruct (run_nccl_test _ _ _) as [[nccl_ok bw] codes].
  cbn [fst snd] in *. unfold get at 1. lookup_ins. cbn [default items].
  rewrite Hget. cbn [strs items].
  set (kept := if nccl_ok is None then [] else codes) in *.
  set (mkept := if passed _ is None then [] else multi_error_codes _) in *.
  assert (forall code,
            code ∈ ["NCCL1002"; "NCCL_MULTI1001"; "NCCL_MULTI1002"; "NCCL_MULTI1003"] ->
            VStr code ∉ (VStr <$> nhc_codes) ++ (VStr <$> kept) ++ (VStr <$> mkept)) as H.
  { intros code Hcode Hin.
    rewrite !elem_of_app, !list_elem_of_fmap in Hin.
    destruct Hin as [(c & [= <-] & Hc) | [(c & [= <-] & Hc) | (c & [= <-] & Hc)]].
    - rewrite Forall_forall in Hnhc. destruct (Hnhc _ Hc) as (d1 & d2 & d3 & d4 & -> & _).
      split_in Hcode; discriminate Hcode.
    - rewrite Forall_forall in Hnccl. specialize (Hnccl _ Hc).
      split_in Hcode; split_in Hnccl; congruence.
    - rewrite Forall_forall in Hmulti. specialize (Hmulti _ Hc).
      split_in Hcode; split_in Hmulti; congruence. }
  repeat (constructor; [apply H; set_solver|]). constructor.
Qed.

End RunnerProps.
(** ** The workers of the coordinator *)

Module OrchestratorProps.
Import Py Orchestrator OrchestratorFacts.

(** *** The node names *)

Lemma to_int_nonnil z :
  Z.to_int z <> Decimal.Pos Decimal.Nil /\ Z.to_int z <> Decimal.Neg Decimal.Nil.
Proof.
  destruct z; cbn; split; try discriminate; intros [= H];
    exact (DecimalPos.Unsigned.to_uint_nonnil _ H).
Qed.

(** Two ints that print alike are equal. *)
Lemma str_of_int_inj a b : str_of_int a = str_of_int b -> a = b.
Proof.
  unfold str_of_int. intros H. apply DecimalZ.to_int_inj.
  destruct (to_int_nonnil a), (to_int_nonnil b).
  assert (Some (Z.to_int a) = Some (Z.to_int b)) as E.
  { rewrite <- (NilZero.isi (Z.to_int a)), <- (NilZero.isi (Z.to_int b)) by assumption.
    now rewrite H. }
  congruence.
Qed.

Lemma append_inj p s t : p +:+ s = p +:+ t -> s = t.
Proof. induction p as [|a p IH]; simpl; [auto | intros [= H]; auto]. Qed.

Lemma range_lookup a b i z :
  range a b !! i = Some z -> z = a + Z.of_nat i /\ (i < Z.to_nat (b - a))%nat.
Proof.
  unfold range. rewrite list_lookup_fmap.
  destruct (seq 0 (Z.to_nat (b - a)) !! i) as [j|] eqn:E; [|discriminate].
  apply lookup_seq in E as [-> ?]. cbn. intros [= <-]. split; [reflexivity | assumption].
Qed.

(** X9.  The coordinator checks NODE_COUNT nodes (none when NODE_COUNT is
    not positive), named after the prefix and the numbers from 1 on, and no
    two of them have the same name. *)
Theorem node_names_distinct cfg :
  length (get_nodes cfg) = Z.to_nat (NODE_COUNT cfg) /\
  (forall i node, get_nodes cfg !! i = Some node ->
     node = PREFIX cfg +:+ "-" +:+ str_of_int (1 + Z.of_nat i)) /\
  NoDup (get_nodes cfg).
Proof.
  assert (forall i node, get_nodes cfg !! i = Some node ->
            node = PREFIX cfg +:+ "-" +:+ str_of_int (1 + Z.of_nat i)) as Hname.
  { intros i node. unfold get_nodes. rewrite list_lookup_fmap.
    destruct (range 1 (NODE_COUNT cfg + 1) !! i) as [z|] eqn:E; [|discriminate].
    apply range_lookup in E as [-> _]. cbn. congruence. }
  split; [|split; [exact Hname|]].
  - unfold get_nodes, range. rewrite !length_fmap, length_seq. f_equal. lia.
  - apply NoDup_alt. intros i j node Hi Hj.
    apply Hname in Hi, Hj. rewrite Hi in Hj.
    apply append_inj, append_inj, str_of_int_inj in Hj. lia.
Qed.

(** *** What a worker returns *)

(** X10.  A worker that returns, returns the name of its node with a
    result that has the five entries the report reads; what the result file
    holds under any key is handed on as it is, the defaults only fill in
    what is missing; and without a result file the result is the fallback
    for the node. *)
Theorem worker_result_is_complete cfg node w n data :
  (run_check_on_node cfg node w).1 = Return (n, data) ->
  n = node /\
  Forall (fun k => is_Some (data !! k))
         ["node"; "timestamp"; "initial_returncode"; "final_returncode";
          "reboot_count"] /\
  (forall stored k v,
     result_json w = Runner.Json (VDict stored) ->
     stored !! k = Some v -> data !! k = Some v) /\
  (result_json w = Runner.NoFile -> data = missing_json cfg node).
Proof.
  unfold run_check_on_node.
  destruct (attempts cfg w _ []) as [[[]|e] done]; [|discriminate].
  destruct (result_json w) as [| |[| | | | | |stored]]; try discriminate.
  - intros [= <- <-]. split; [reflexivity|]. split; [|split; [discriminate | reflexivity]].
    repeat (constructor; [unfold missing_json; lookup_ins; eauto|]). constructor.
  - intros [= <- <-]. split; [reflexivity|]. split; [|split; [|discriminate]].
    + repeat (constructor;
              [rewrite !setdefault_lookup;
               repeat (destruct (decide _) as [E|E];
                       [try discriminate E | try (contradiction E; reflexivity)]);
               eauto|]).
      constructor.
    + intros ? k v [= <-] Hk. rewrite !setdefault_lookup.
      repeat (destruct (decide _) as [<-|_]; [rewrite ?Hk; reflexivity|]).
      exact Hk.
Qed.

(** X10 for the clean node of the fleet. *)
Lemma worker_result_is_complete_clean :
  (run_check_on_node Scenario.fleet "hpc-1" Scenario.clean).1
  = Return ("hpc-1", Cases.clean_collected) /\
  Cases.clean_collected !! "timestamp" = Some (VStr "20250101-0900") /\
  Cases.clean_collected !! "final_returncode" = Some (VInt 0).
Proof.
  assert ((run_check_on_node Scenario.fleet "hpc-1" Scenario.clean).1
          = Return ("hpc-1", Cases.clean_collected)) as Hrun
    by (vm_compute; reflexivity).
  split; [exact Hrun|].
  destruct (worker_result_is_complete Scenario.fleet "hpc-1" Scenario.clean
              "hpc-1" Cases.clean_collected Hrun) as (_ & _ & Hkeep & _).
  split; [reflexivity|].
  apply (Hkeep Scenario.clean_result); reflexivity.
Defined.

(** *** The commands of a worker *)

Lemma range_snoc a n :
  0 <= n -> range a (a + n + 1) = range a (a + n) ++ [a + n].
Proof.
  intros Hn. unfold range.
  replace (Z.to_nat (a + n + 1 - a)) with (S (Z.to_nat n)) by lia.
  replace (Z.to_nat (a + n - a)) with (Z.to_nat n) by lia.
  rewrite seq_S, fmap_app. cbn. do 3 f_equal. lia.
Qed.

(** The loop over attempts of which the last is beyond the maximum: when it
    returns, it has gone through some rounds of check, flag test, reboot,
    sleep, wait and flag removal, and then a check and a flag test. *)
Lemma attempts_rounds cfg w : forall todo done cmds z,
  last todo = Some z ->
  MAX_REBOOT_COUNT cfg < z ->
  attempts cfg w todo done = (Return tt, cmds) ->
  exists k,
    (k <= allowed (MAX_REBOOT_COUNT cfg) todo)%nat /\
    cmds = done ++ mjoin (replicate k Notions.round) ++ [RunCheck; TestFlag].
Proof.
  induction todo as [|attempt todo IH]; intros done cmds z Hlast Hz; [discriminate|].
  cbn [attempts].
  destruct (check_run w attempt) as [ret|]; [|discriminate].
  destruct (negb (flag_test w attempt =? 0)).
  { intros [= <-]. exists 0%nat. split; [lia | reflexivity]. }
  destruct (MAX_REBOOT_COUNT cfg <? attempt) eqn:Hmax.
  { intros [= <-]. exists 0%nat. split; [lia | reflexivity]. }
  apply Z.ltb_ge in Hmax.
  destruct (negb (reboot_run w attempt)); [discriminate|].
  destruct (RECHECK_INTERVAL_SECONDS cfg <? 0); [discriminate|].
  destruct (negb (cleanup_run w attempt)); [discriminate|].
  destruct (decide (todo = [])) as [-> | Hne].
  { injection Hlast as ->. lia. }
  rewrite RunnerProps.last_cons_nonempty in Hlast by exact Hne.
  intros Hrun. apply (IH _ _ z) in Hrun as (k & Hk & ->); [|exact Hlast|exact Hz].
  exists (S k). split.
  - unfold allowed in *. cbn [List.filter].
    destruct (Z.leb_spec attempt (MAX_REBOOT_COUNT cfg)); [|lia].
    cbn [length]. lia.
  - cbn [replicate mjoin]. unfold Notions.round. rewrite <- !app_assoc. reflexivity.
Qed.

(** X11.  With a maximum that is not negative, the commands of a worker
    that returns are some rounds, at most MAX_REBOOT_COUNT of them, of
    check, flag test, reboot, sleep, wait for SSH and removal of the flag,
    followed by one more check and flag test: every reboot is followed by a
    new check, and the flag is removed before it. *)
Theorem worker_commands_are_rounds cfg node w r cmds :
  0 <= MAX_REBOOT_COUNT cfg ->
  run_check_on_node cfg node w = (Return r, cmds) ->
  exists k,
    (k <= Z.to_nat (MAX_REBOOT_COUNT cfg))%nat /\
    cmds = mjoin (replicate k Notions.round) ++ [RunCheck; TestFlag].
Proof.
  intros HM. unfold run_check_on_node.
  destruct (attempts cfg w _ []) as [[[]|e] done] eqn:Hrun; [|discriminate].
  intros Hret. assert (cmds = done) as ->.
  { destruct (result_json w) as [| |[]]; congruence. }
  apply (attempts_rounds _ _ _ _ _ (MAX_REBOOT_COUNT cfg + 1)) in Hrun
    as (k & Hk & ->); [| |lia].
  - exists k. split; [|reflexivity]. rewrite allowed_range in Hk. exact Hk.
  - replace (MAX_REBOOT_COUNT cfg + 2) with (1 + MAX_REBOOT_COUNT cfg + 1) by lia.
    rewrite range_snoc by lia. rewrite last_snoc. f_equal. lia.
Qed.

(** X11 for a node that asks for a reboot once. *)
Lemma worker_commands_are_rounds_once :
  0 <= MAX_REBOOT_COUNT Scenario.fleet /\
  run_check_on_node Scenario.fleet "hpc-1" Cases.reboots_once
  = (Return ("hpc-1", Cases.clean_collected),
     Notions.round ++ [RunCheck; TestFlag]) /\
  exists k,
    (k <= Z.to_nat (MAX_REBOOT_COUNT Scenario.fleet))%nat /\
    Notions.round ++ [RunCheck; TestFlag]
    = mjoin (replicate k Notions.round) ++ [RunCheck; TestFlag].
Proof.
  assert (0 <= MAX_REBOOT_COUNT Scenario.fleet) as HM by (cbn; lia).
  assert (run_check_on_node Scenario.fleet "hpc-1" Cases.reboots_once
          = (Return ("hpc-1", Cases.clean_collected),
             Notions.round ++ [RunCheck; TestFlag])) as Hrun
    by (vm_compute; reflexivity).
  split; [exact HM|]. split; [exact Hrun|].
  exact (worker_commands_are_rounds Scenario.fleet "hpc-1" Cases.reboots_once
           _ _ HM Hrun).
Defined.

(** X12.  The exit code of the check command plays no part: a worker does
    and returns the same whatever codes the check exits with; only a check
    that runs into its timeout makes a difference. *)
Theorem check_exit_code_is_ignored cfg node w (codes : Z -> Z) :
  run_check_on_node cfg node w
  = run_check_on_node cfg node
      {| check_run := fun attempt => codes <$> check_run w attempt;
         flag_test := flag_test w;
         reboot_run := reboot_run w;
         cleanup_run := cleanup_run w;
         result_json := result_json w |}.
Proof.
  unfold run_check_on_node. cbn [result_json].
  set (w' := {| check_run := fun attempt => codes <$> check_run w attempt;
                flag_test := flag_test w;
                reboot_run := reboot_run w;
                cleanup_run := cleanup_run w;
                result_json := result_json w |}).
  assert (forall todo done, attempts cfg w todo done = attempts cfg w' todo done) as ->;
    [|reflexivity].
  induction todo as [|attempt todo IH]; intros done; [reflexivity|].
  cbn [attempts]. subst w'. cbn [check_run flag_test reboot_run cleanup_run].
  destruct (check_run w attempt) as [ret|]; [|reflexivity]. cbn [fmap option_fmap option_map].
  rewrite IH. reflexivity.
Qed.

End OrchestratorProps.
(** ** The functions of the escalation submitter *)

Module GhrProps.
Import Py Ghr GhrFacts.

(** *** The check for a recent success *)



(** X14.  A longer window finds whatever a shorter one finds: when the
    check answers True for some number of hours, it answers True for any
    greater number for which the start of the window can still be
    computed, on the same log at the same time. *)
Theorem longer_window_finds_success w hours hours' s cutoff' :
  hours <= hours' ->
  minus_hours (clock w (reads s)) hours' = Return cutoff' ->
  (has_recent_success w hours s).1 = Return true ->
  (has_recent_success w hours' s).1 = Return true.
Proof.
  intros Hle Hcut'. rewrite !has_recent_success_run, Hcut'. cbn [fst].
  destruct (minus_hours (clock w (reads s)) hours) as [cutoff|] eqn:Hcut;
    [|discriminate].
  destruct (log s) as [lines|]; [|discriminate].
  intros [= H]. f_equal.
  apply scan_true_iff in H as (ts & Hin & Hts).
  apply scan_true_iff. exists ts. split; [exact Hin|].
  unfold minus_hours in Hcut, Hcut'.
  destruct (_ && _) in Hcut; [|discriminate]. injection Hcut as <-.
  destruct (_ && _) in Hcut'; [|discriminate]. injection Hcut' as <-.
  unfold hour, second in *. nia.
Qed.

(** X14 for the same log, with one and two days. *)
Lemma longer_window_finds_success_days :
  (24 <= 48 /\
   minus_hours (clock Scenario.service_up (reads Scenario.recent_log)) 48
   = Return (Scenario.ticking 0 - 48 * hour) /\
   (has_recent_success Scenario.service_up 24 Scenario.recent_log).1 = Return true) /\
  (has_recent_success Scenario.service_up 48 Scenario.recent_log).1 = Return true.
Proof.
  assert (24 <= 48) as Hle by lia.
  assert (minus_hours (clock Scenario.service_up (reads Scenario.recent_log)) 48
          = Return (Scenario.ticking 0 - 48 * hour)) as Hcut
    by (vm_compute; reflexivity).
  assert ((has_recent_success Scenario.service_up 24 Scenario.recent_log).1
          = Return true) as H by (vm_compute; reflexivity).
  split; [split; [exact Hle | split; [exact Hcut | exact H]]|].
  exact (longer_window_finds_success Scenario.service_up 24 48
           Scenario.recent_log _ Hle Hcut H).
Defined.

(** *** The request *)

(** X15.  Submitting makes one request, with the payload as it was given
    and with POST or PUT in some letter case: the method asked for when
    that is one of the two, POST for any other.  When the transport
    raises, what escapes is not its exception but the TypeError of the
    timestamps the handler asks for, and nothing is logged. *)
Theorem request_is_sent_and_failure_is_masked w payload method s :
  exists m,
    (upper m ∈ ["POST"; "PUT"]) /\
    (m = method \/ (upper method ∉ ["POST"; "PUT"]) /\ m = "POST") /\
    let sent := {| reads := reads s; calls := S (calls s); log := log s;
                   events := events s ++ [Requested m payload] |} in
    submit_ghr_request w payload method s
    = match transport w (calls s) with
      | Return _ => (Return tt, sent)
      | Raise _ => (Raise not_a_tzinfo, after_reads 1 sent)
      end.
Proof.
  rewrite submit_ghr_request_run. cbv zeta.
  destruct (bool_decide (upper method ∈ ["POST"; "PUT"])) eqn:E.
  - apply bool_decide_eq_true in E. exists method. auto.
  - apply bool_decide_eq_false in E. exists "POST".
    split; [apply elem_of_cons; left; reflexivity|]. auto.
Qed.

(** *** The payload *)

(** X16.  In the properties of a payload the time stamp, the nodes and the
    request identifier are the ones of the call, whatever the additional
    properties hold under these keys; the additional properties win under
    any other key, also over the category and the description, which are
    used where the additional properties say nothing.  Building the payload
    reads the clock once, for the identifier, and does not raise. *)
Theorem payload_properties w category description additional ns ts s :
  exists props,
    build_ghr_payload w category description additional ns ts s
    = (Return (<["properties" := VDict props]> ∅), after_reads 1 s) /\
    props !! "requestId" = Some (VStr (timestamp_text w (clock w (reads s)))) /\
    props !! "nodes" = Some (VList (VDict <$> ns)) /\
    props !! "timestamp" = Some (VStr ts) /\
    (forall k v, k ∉ ["requestId"; "nodes"; "timestamp"] ->
       additional !! k = Some v -> props !! k = Some v) /\
    (additional !! "category" = None -> props !! "category" = Some (VStr category)) /\
    (additional !! "description" = None ->
     props !! "description" = Some (VStr description)).
Proof.
  unfold build_ghr_payload. rewrite log_and_reraise_run. run_step.
  eexists. split; [reflexivity|].
  split; [lookup_ins; reflexivity|]. split; [lookup_ins; reflexivity|].
  split; [lookup_ins; reflexivity|]. split; [|split].
  - intros k v Hk Hv.
    rewrite !lookup_insert_ne by (intros <-; apply Hk; set_solver).
    apply lookup_union_Some_l, Hv.
  - intros Hnone. lookup_ins. rewrite lookup_union_r by exact Hnone.
    lookup_ins. reflexivity.
  - intros Hnone. lookup_ins. rewrite lookup_union_r by exact Hnone.
    lookup_ins. reflexivity.
Qed.

(** X16 with additional properties that name a category and a time stamp. *)
Lemma payload_properties_override :
  exists props,
    (build_ghr_payload Scenario.service_down "NHC2001" "" Cases.additional []
                       "2025-01-01T00:00:00Z" Scenario.no_log).1
    = Return (<["properties" := VDict props]> ∅) /\
    props !! "timestamp" = Some (VStr "2025-01-01T00:00:00Z") /\
    props !! "category" = Some (VStr "NHC2009") /\
    props !! "description" = Some (VStr "").
Proof.
  destruct (payload_properties Scenario.service_down "NHC2001" "" Cases.additional []
              "2025-01-01T00:00:00Z" Scenario.no_log)
    as (props & Hrun & _ & _ & Hts & Hadd & _ & Hdesc).
  exists props. split; [rewrite Hrun; reflexivity|]. split; [exact Hts|].
  split; [|apply Hdesc; reflexivity].
  apply Hadd; [|reflexivity].
  intros Hin. repeat (apply elem_of_cons in Hin as [Hin | Hin]; [discriminate Hin|]).
  by apply elem_of_nil in Hin.
Defined.

End GhrProps.
(** ** The report and the notification *)

Module ReportProps.
Import Py Report.

Ltac lookup_ins :=
  repeat (rewrite lookup_insert_eq || (rewrite lookup_insert_ne by discriminate)).

(** *** The summary *)

(** X17.  The summary of an empty list of results raises an IndexError,
    before the CSV file or the HTML page is written.  Of any other list it has one row per
    result, in the order of the results; the CSV file has the header line
    and then these rows; and every line has nine cells. *)
Theorem summary_has_one_row_per_result fmt results :
  match summarize_and_output fmt results with
  | Raise e => results = [] /\ exn_class e = "IndexError"
  | Return r =>
      results <> [] /\
      html_rows r = row_of fmt <$> results /\
      length (html_rows r) = length results /\
      csv r = (VStr <$> headers) :: html_rows r /\
      Forall (fun line => length line = 9%nat) (csv r)
  end.
Proof.
  destruct results as [|first rest]; [split; reflexivity|].
  cbn [summarize_and_output html_rows csv].
  split; [discriminate|]. split; [reflexivity|].
  split; [rewrite length_fmap; reflexivity|]. split; [reflexivity|].
  constructor; [reflexivity|].
  apply Forall_fmap, Forall_forall. intros entry _. reflexivity.
Qed.

(** X18.  An empty fleet ends the coordinator with an IndexError: with a
    positive number of workers, the report at the end of [main] raises
    exactly when NODE_COUNT is not positive, and has NODE_COUNT rows when
    it is. *)
Theorem empty_fleet_breaks_the_report fmt cfg worlds sched :
  0 < Orchestrator.MAX_PARALLEL cfg ->
  match main_report fmt cfg worlds sched with
  | Raise e => Orchestrator.NODE_COUNT cfg <= 0 /\ exn_class e = "IndexError"
  | Return r =>
      0 < Orchestrator.NODE_COUNT cfg /\
      length (html_rows r) = Z.to_nat (Orchestrator.NODE_COUNT cfg)
  end.
Proof.
  intros Hpar. unfold main_report, Orchestrator.main.
  destruct (OrchestratorFacts.collect_results_spec cfg (Orchestrator.get_nodes cfg)
              worlds sched Hpar) as (results & -> & Hperm).
  apply Permutation_length in Hperm.
  rewrite length_imap in Hperm.
  assert (length (Orchestrator.get_nodes cfg)
          = Z.to_nat (Orchestrator.NODE_COUNT cfg)) as Hlen.
  { unfold Orchestrator.get_nodes, range. rewrite !length_fmap, length_seq.
    f_equal. lia. }
  rewrite Hlen in Hperm.
  destruct results as [|first rest]; cbn [summarize_and_output html_rows];
    cbn [length] in Hperm.
  - split; [lia | reflexivity].
  - split; [lia|]. rewrite length_fmap. cbn [length]. lia.
Qed.

(** X18 for a fleet of no node and for the fleet of three. *)
Lemma empty_fleet_breaks_the_report_none :
  (0 < Orchestrator.MAX_PARALLEL Cases.no_nodes /\
   0 < Orchestrator.MAX_PARALLEL Scenario.fleet) /\
  main_report Cases.plain Cases.no_nodes Scenario.fleet_worlds Scenario.last_first
  = Raise (Exn "IndexError" "list index out of range") /\
  exists r,
    main_report Cases.plain Scenario.fleet Scenario.fleet_worlds Scenario.last_first
    = Return r /\
    length (html_rows r) = 3%nat.
Proof.
  assert (0 < Orchestrator.MAX_PARALLEL Cases.no_nodes) as H0 by (cbn; lia).
  assert (0 < Orchestrator.MAX_PARALLEL Scenario.fleet) as H3 by (cbn; lia).
  split; [split; assumption|].
  pose proof (empty_fleet_breaks_the_report Cases.plain Cases.no_nodes
                Scenario.fleet_worlds Scenario.last_first H0) as He.
  pose proof (empty_fleet_breaks_the_report Cases.plain Scenario.fleet
                Scenario.fleet_worlds Scenario.last_first H3) as Hf.
  split.
  - destruct (main_report Cases.plain Cases.no_nodes _ _) as [r|e] eqn:E.
    + destruct He as [He _]. cbn in He. lia.
    + vm_compute in E. injection E as <-. reflexivity.
  - destruct (main_report Cases.plain Scenario.fleet _ _) as [r|e] eqn:E.
    + exists r. split; [reflexivity|]. exact (proj2 Hf).
    + destruct Hf as [Hf _]. cbn in Hf. lia.
Defined.

(** *** What the report shows *)

(** X19.  What the report shows of the results a run of the runner has
    written.  A final result shows Success under GPU NHC and All_Success
    under Initial Result whatever its probes did, and All_Success or Fail
    under Final Result; a result written before a reboot, which is what
    the result file holds when the run did not get to its final save, shows
    Fail, Fail and All_Success. *)
Theorem saved_results_in_the_report fmt cfg env imds probes previous st :
  exists prev fin,
    Runner.saved (Runner.main cfg env imds probes previous st).2
    = Runner.saved st ++ prev ++ fin /\
    Forall (fun kd : Runner.save_kind * dict =>
              kd.1 = Runner.Intermediate /\
              row_of fmt kd.2 !! 1%nat = Some (VStr "Fail") /\
              row_of fmt kd.2 !! 6%nat = Some (VStr "Fail") /\
              row_of fmt kd.2 !! 8%nat = Some (VStr "All_Success")) prev /\
    Forall (fun kd : Runner.save_kind * dict =>
              kd.1 = Runner.Final /\
              row_of fmt kd.2 !! 1%nat = Some (VStr "Success") /\
              row_of fmt kd.2 !! 6%nat = Some (VStr "All_Success") /\
              (row_of fmt kd.2 !! 8%nat = Some (VStr "All_Success") \/
               row_of fmt kd.2 !! 8%nat = Some (VStr "Fail"))) fin.
Proof.
  destruct (RunnerProps.main_shape cfg env imds probes previous st)
    as (prev & fin & Hs & Hprev & Hfin).
  exists prev, fin. split; [exact Hs|]. split.
  - eapply Forall_impl; [exact Hprev|]. intros kd (Hk & Hi & Hf).
    split; [exact Hk|]. unfold row_of, get. rewrite Hi, Hf. cbn. auto.
  - eapply Forall_impl; [exact Hfin|]. intros kd (Hk & Hi & Hf).
    split; [exact Hk|]. unfold row_of, get. rewrite Hi.
    destruct Hf as [Hf | Hf]; rewrite Hf; cbn; auto.
Qed.

(** X20.  The classes of the HTML table go by the final return code alone:
    a row is greyed as ssh-fail exactly when the code is 255; only its last
    cell gets a class, all-success for the code 0, fail for any code but 0
    and 255, none for 255. *)
Theorem row_classes fmt entry :
  let rc := get entry "final_returncode" (VInt 1) in
  html_classes (row_of fmt entry)
  = Return (if eq_int rc 0 then NoClass
            else if eq_int rc 255 then SshFail else NoClass,
            replicate 8 NoClass ++
            [if eq_int rc 0 then AllSuccess
             else if eq_int rc 255 then NoClass else Fail]).
Proof.
  cbv zeta. unfold html_classes, tr_class, row_of, result_text.
  destruct (eq_int (get entry "final_returncode" (VInt 1)) 0);
    [reflexivity|].
  destruct (eq_int (get entry "final_returncode" (VInt 1)) 255); reflexivity.
Qed.

(** *** The notification *)

Lemma failed_lines_spec fmt failed_nodes :
  Forall (fun d : dict => is_Some (d !! "node") /\ is_Some (d !! "gpu_check"))
         failed_nodes ->
  forall text_lines,
  exists lines,
    failed_lines fmt failed_nodes text_lines = Return (text_lines ++ lines) /\
    length lines = length failed_nodes.
Proof.
  induction 1 as [|d l [[name Hn] [gpu Hg]] _ IH]; intros text_lines;
    cbn [failed_lines].
  - exists []. rewrite app_nil_r. split; reflexivity.
  - unfold failed_line, item. rewrite Hn, Hg.
    match goal with |- context [failed_lines fmt l (text_lines ++ [?line])] =>
      destruct (IH (text_lines ++ [line])) as (lines & -> & Hlen);
      exists (line :: lines)
    end.
    rewrite <- app_assoc. split; [reflexivity | cbn [length]; congruence].
Qed.

(** X21.  When every failed node has its "node" and "gpu_check" entries,
    the notification does not raise, whatever the request to the webhook
    does: for an empty list it only reports that all nodes passed and sends
    nothing; otherwise it posts one message, with a heading and one line
    per node, and a failure of the request is logged, not raised. *)
Theorem notification_survives_transport fmt post failed_nodes :
  Forall (fun d : dict => is_Some (d !! "node") /\ is_Some (d !! "gpu_check"))
         failed_nodes ->
  exists notices,
    notify_teams_failed_nodes fmt post failed_nodes = (Return tt, notices) /\
    match failed_nodes with
    | [] => notices = [AllPassed]
    | _ :: _ =>
        exists lines,
          length lines = S (length failed_nodes) /\
          notices = [Posted lines;
                     match post with
                     | Return _ => Sent
                     | Raise e => SendFailed e
                     end]
    end.
Proof.
  intros Hkeys. unfold notify_teams_failed_nodes.
  destruct failed_nodes as [|d l]; [eexists; split; reflexivity|].
  cbn [nonempty negb].
  destruct (failed_lines_spec fmt (d :: l) Hkeys ["**❌ List of Failure nodes**"])
    as (lines & -> & Hlen).
  destruct post as [[]|e]; eexists; (split; [reflexivity|]);
    eexists; (split; [|reflexivity]); cbn [app length] in *; lia.
Qed.

(** X21 for the result of the node whose NHC log reports a failure, with a
    webhook that cannot be reached. *)
Lemma notification_survives_transport_unreachable :
  Forall (fun d : dict => is_Some (d !! "node") /\ is_Some (d !! "gpu_check"))
         Scenario.failed_node_results /\
  notify_teams_failed_nodes Cases.plain
    (Raise (Exn "ConnectionError" "connection refused")) Scenario.failed_node_results
  = (Return tt,
     [Posted ["**❌ List of Failure nodes**"; "- hpc-1: GPU=NG, NCCL=N/A"];
      SendFailed (Exn "ConnectionError" "connection refused")]).
Proof.
  assert (Forall (fun d : dict => is_Some (d !! "node") /\ is_Some (d !! "gpu_check"))
                 Scenario.failed_node_results) as Hkeys.
  { change Scenario.failed_node_results
      with [default ∅ (head Scenario.failed_node_results)].
    constructor; [|constructor]. split; eexists; vm_compute; reflexivity. }
  split; [exact Hkeys|].
  destruct (notification_survives_transport Cases.plain
              (Raise (Exn "ConnectionError" "connection refused"))
              Scenario.failed_node_results Hkeys) as (notices & Hrun & _).
  rewrite Hrun. f_equal. vm_compute in Hrun. injection Hrun as <-. reflexivity.
Defined.

(** X22.  A fallback result of the coordinator has no "gpu_check" entry:
    when the list of failed nodes starts with one, the notification raises
    a KeyError while it builds its first line, and posts nothing. *)
Theorem notification_breaks_on_fallback fmt post cfg node e rest :
  notify_teams_failed_nodes fmt post (Orchestrator.fallback cfg node e :: rest)
  = (Raise (Exn "KeyError" "'gpu_check'"), []) /\
  notify_teams_failed_nodes fmt post (Orchestrator.missing_json cfg node :: rest)
  = (Raise (Exn "KeyError" "'gpu_check'"), []).
Proof. split; reflexivity. Qed.

(** X23.  The filter for reports keeps, in their order, the results whose
    "node" entry is not the scheduler node; a result with no "node" entry,
    or with one that is not a string, is kept. *)
Theorem report_filter_drops_the_scheduler results scheduler_node :
  let kept := filter_summary_for_report results scheduler_node in
  sublist kept results /\
  (forall r, r ∈ kept <->
     r ∈ results /\ get r "node" VNone <> VStr scheduler_node) /\
  (forall r, r ∈ results -> r !! "node" = None -> r ∈ kept).
Proof.
  assert (Htext : forall v s, is_text v s = false <-> v <> VStr s).
  { intros v s. unfold is_text. destruct v; try (split; [discriminate|reflexivity]).
    rewrite String.eqb_neq. split; [congruence|].
    intros H E. apply H. f_equal. exact E. }
  cbv zeta. unfold filter_summary_for_report. split; [apply sublist_filter|].
  split.
  - intros r. rewrite list_elem_of_filter, Htext. tauto.
  - intros r Hin Hnone. rewrite list_elem_of_filter, Htext. split; [|exact Hin].
    unfold get. rewrite Hnone. discriminate.
Qed.

End ReportProps.
(** ** Copying scripts and results, reboot and recheck *)

Module RemoteProps.
Import Py Remote.

(** *** Retries *)

(** What a sequence of runs with retries leaves behind: [f] failed runs,
    each followed by the delay, and one more run when [f] is less than the
    number of runs allowed. *)
Lemma copy_tries_spec scp delay :
  0 <= delay ->
  forall todo k done,
    let n := length todo in
    let f := failures_first (fun i => exit_zero (scp i)) k n in
    copy_tries scp delay todo k done
    = (Return (f <? n)%nat,
       done ++ mjoin (replicate f [Scp; Slept delay]) ++
       (if (f <? n)%nat then [Scp] else [])).
Proof.
  intros Hdelay. induction todo as [|a todo IH]; intros k done; cbn [copy_tries].
  - cbn. rewrite app_nil_r. reflexivity.
  - cbn [length failures_first].
    destruct (exit_zero (scp k)) eqn:Hok.
    + destruct (scp k) as [[| |]|]; try discriminate. reflexivity.
    + assert (match scp k with
              | Some 0 => (Return true, done ++ [Scp])
              | _ => sleep delay (done ++ [Scp])
                           (copy_tries scp delay todo (S k))
              end
              = sleep delay (done ++ [Scp]) (copy_tries scp delay todo (S k))) as ->
        by (destruct (scp k) as [[| |]|]; try discriminate; reflexivity).
      unfold sleep. destruct (Z.ltb_spec delay 0); [lia|].
      rewrite IH. cbn [replicate mjoin]. rewrite <- !app_assoc.
      change (S ?a <? S ?b)%nat with (a <? b)%nat. reflexivity.
Qed.


(** X24.  Copying a script with a delay that is not negative never raises,
    whatever the runs of scp do (a run that raises counts as a failed
    one).  With [f] the number of runs that fail before one exits with 0,
    among the [max_retries] allowed, it makes [f] runs, each followed by the
    delay (also the last of them), and, if [f < max_retries], one more run,
    and it returns True exactly then.  With no run allowed it returns False
    at once. *)
Theorem copy_retries_until_success scp max_retries retry_delay :
  0 <= retry_delay ->
  let n := Z.to_nat max_retries in
  let f := failures_first (fun i => exit_zero (scp i)) 0 n in
  copy_script_to_node scp max_retries retry_delay
  = (Return (f <? n)%nat,
     mjoin (replicate f [Scp; Slept retry_delay]) ++
     (if (f <? n)%nat then [Scp] else [])).
Proof.
  intros Hdelay. unfold copy_script_to_node.
  rewrite copy_tries_spec by exact Hdelay.
  rewrite RunnerProps.range_length.
  replace (Z.to_nat (max_retries + 1 - 1)) with (Z.to_nat max_retries) by lia.
  reflexivity.
Qed.

(** X24 when the first two runs fail, one of them by its timeout. *)
Lemma copy_retries_until_success_third :
  0 <= 2 /\
  copy_script_to_node Cases.fails_twice 5 2
  = (Return true, [Scp; Slept 2; Scp; Slept 2; Scp]).
Proof.
  split; [lia|].
  rewrite (copy_retries_until_success Cases.fails_twice 5 2 ltac:(lia)).
  reflexivity.
Defined.


(** *** The orchestrator's own copy with retries *)

Lemma orchestrator_scp_tries_spec scp delay :
  0 <= delay ->
  forall todo k done,
    let n := length todo in
    let f := failures_first (fun i => scp i =? 0) k n in
    OrchestratorUtils.scp_tries scp delay todo k done
    = (Return (f <? n)%nat,
       done ++ mjoin (replicate f [Scp; Slept delay]) ++
       (if (f <? n)%nat then [Scp] else [])).
Proof.
  intros Hdelay.
  induction todo as [|a todo IH]; intros k done; cbn [OrchestratorUtils.scp_tries].
  - cbn. rewrite app_nil_r. reflexivity.
  - cbn [length failures_first].
    destruct (scp k =? 0); [reflexivity|].
    unfold sleep. destruct (Z.ltb_spec delay 0); [lia|].
    rewrite IH. cbn [replicate mjoin]. rewrite <- !app_assoc.
    change (S ?a <? S ?b)%nat with (a <? b)%nat. reflexivity.
Qed.

(** X26.  The orchestrator's copy with retries, with a delay that is not
    negative: [f] failed runs of scp, each followed by the delay, then one
    more run if [f] is less than the number of runs allowed, and True
    exactly then; no run at all, and False, when [retries] is not
    positive. *)
Theorem orchestrator_scp_retries scp retries delay :
  0 <= delay ->
  let n := Z.to_nat retries in
  let f := failures_first (fun i => scp i =? 0) 0 n in
  OrchestratorUtils.scp_with_retry scp retries delay
  = (Return (f <? n)%nat,
     mjoin (replicate f [Scp; Slept delay]) ++
     (if (f <? n)%nat then [Scp] else [])) /\
  (retries <= 0 ->
   OrchestratorUtils.scp_with_retry scp retries delay = (Return false, [])).
Proof.
  intros Hdelay. unfold OrchestratorUtils.scp_with_retry.
  rewrite orchestrator_scp_tries_spec by exact Hdelay.
  rewrite RunnerProps.range_length.
  replace (Z.to_nat (retries - 0)) with (Z.to_nat retries) by lia.
  split; [reflexivity|].
  intros Hr. replace (Z.to_nat retries) with 0%nat by lia. reflexivity.
Qed.

(** X26 when scp never succeeds. *)
Lemma orchestrator_scp_retries_never :
  0 <= 5 /\
  OrchestratorUtils.scp_with_retry (fun _ => 1) 3 5
  = (Return false, [Scp; Slept 5; Scp; Slept 5; Scp; Slept 5]).
Proof.
  split; [lia|].
  destruct (orchestrator_scp_retries (fun _ => 1) 3 5 ltac:(lia)) as [H _].
  rewrite H. reflexivity.
Defined.

(** *** Reboot and recheck *)

(** X27.  Without the word REBOOT in the answer of the flag test the
    result is returned as it is, after that test alone.  With it, and a
    reboot count that is an int (0 when there is none), the count of the
    result is raised by one even when the reboot or the recheck runs into
    its timeout; there is exactly one reboot; what is returned is the
    updated result; and the return code of the recheck is stored exactly
    when the node came back and the recheck ended. *)
Theorem recheck_counts_the_reboot n result :
  let '(o, stored, steps) := handle_reboot_and_recheck n result in
  if contains "REBOOT" (flag_stdout n) then
    forall c,
      get result "reboot_count" (VInt 0) = VInt c ->
      stored !! "reboot_count" = Some (VInt (c + 1)) /\
      length (List.filter (fun s => match s with Reboot => true | _ => false end)
                          steps) = 1%nat /\
      (forall r, o = Return r -> r = stored) /\
      (forall k, k <> "reboot_count" -> k <> "post_reboot_returncode" ->
                 stored !! k = result !! k) /\
      match recheck n with
      | Some returncode =>
          if reboot_returns n && ssh_back n
          then stored !! "post_reboot_returncode" = Some (VInt returncode)
          else stored !! "post_reboot_returncode" = result !! "post_reboot_returncode"
      | None => stored !! "post_reboot_returncode" = result !! "post_reboot_returncode"
      end
  else o = Return result /\ stored = result /\ steps = [TestFlag].
Proof.
  unfold handle_reboot_and_recheck.
  destruct (contains "REBOOT" (flag_stdout n)); cbn [negb]; [|auto].
  destruct (succ (get result "reboot_count" (VInt 0))) as [count|e] eqn:Hsucc.
  - destruct (reboot_returns n), (ssh_back n), (recheck n) as [rc|];
      cbn [negb andb]; intros c Hc; rewrite Hc in Hsucc; injection Hsucc as <-;
      (split; [repeat (rewrite lookup_insert_eq
                       || (rewrite lookup_insert_ne by discriminate)); reflexivity|]);
      (split; [reflexivity|]);
      (split; [intros r [= <-]; reflexivity || (intros r [=])|]);
      (split; [intros k Hk1 Hk2; rewrite ?lookup_insert_ne by congruence; reflexivity|]);
      repeat (rewrite lookup_insert_eq
              || (rewrite lookup_insert_ne by discriminate)); reflexivity.
  - intros c Hc. rewrite Hc in Hsucc. discriminate Hsucc.
Qed.

(** *** Distribution in parallel *)

Lemma foldl_record_copy l : forall results,
  NoDup l.*2 ->
  (forall fut, fut ∈ l ->
     foldl record_copy results l !! fut.2
     = Some match fut.1 with
            | Return b => b
            | Raise _ => false
            end) /\
  (forall node, node ∉ l.*2 -> foldl record_copy results l !! node = results !! node).
Proof.
  induction l as [|fut l IH]; intros results Hnd; cbn [foldl].
  - split; [intros ? H; by apply elem_of_nil in H | reflexivity].
  - cbn [fmap list_fmap] in Hnd. apply NoDup_cons in Hnd as [Hnotin Hnd].
    destruct (IH (record_copy results fut) Hnd) as [IH1 IH2]. split.
    + intros fut' [-> | Hin]%elem_of_cons; [|by apply IH1].
      rewrite IH2 by exact Hnotin. unfold record_copy. apply lookup_insert_eq.
    + intros node Hnode. cbn [fmap list_fmap] in Hnode.
      apply not_elem_of_cons in Hnode as [Hne Hnode].
      rewrite IH2 by exact Hnode. unfold record_copy.
      apply lookup_insert_ne. congruence.
Qed.

Lemma imap_keys {A B} (l : list B) : forall g : nat -> B -> A,
  (imap (fun i x => (g i x, x)) l).*2 = l.
Proof.
  induction l as [|x l IH]; intros g; [reflexivity|].
  cbn [imap fmap list_fmap snd]. f_equal. apply (IH (fun i => g (S i))).
Qed.

(** X28.  With a positive number of workers and node names that are all
    different, the distribution returns one entry per node and no other,
    in whatever order the copies complete: True or False as the copy to
    that node returned, and False when it raised. *)
Theorem distribution_reports_every_node scps sched nodes
    max_workers max_retries retry_delay :
  0 < max_workers ->
  NoDup nodes ->
  exists results,
    distribute_scripts_parallel scps sched nodes max_workers max_retries retry_delay
    = Return results /\
    (forall i node,
       nodes !! i = Some node ->
       results !! node
       = Some match (copy_script_to_node (scps i) max_retries retry_delay).1 with
              | Return b => b
              | Raise _ => false
              end) /\
    (forall node, node ∉ nodes -> results !! node = None).
Proof.
  intros Hw Hnd. unfold distribute_scripts_parallel.
  destruct (Z.leb_spec max_workers 0); [lia|].
  eexists. split; [reflexivity|].
  set (futures := imap (fun i node =>
                          ((copy_script_to_node (scps i) max_retries retry_delay).1,
                           node)) nodes).
  assert (futures.*2 = nodes) as Hkeys.
  { subst futures. apply imap_keys. }
  pose proof (OrchestratorFacts.as_completed_permutation sched futures) as Hperm.
  assert (NoDup (Orchestrator.as_completed sched futures).*2) as Hnd'.
  { rewrite Hperm, Hkeys. exact Hnd. }
  destruct (foldl_record_copy _ ∅ Hnd') as [H1 H2]. split.
  - intros i node Hi.
    apply (H1 ((copy_script_to_node (scps i) max_retries retry_delay).1, node)).
    rewrite Hperm. subst futures.
    apply (OrchestratorFacts.elem_of_imap_lookup
             (fun i node => ((copy_script_to_node (scps i) max_retries retry_delay).1,
                             node))), Hi.
  - intros node Hnode. rewrite H2; [apply lookup_empty|].
    rewrite Hperm, Hkeys. exact Hnode.
Qed.

(** X28 for two nodes, of which the second is copied to first; the copy to
    the first node needs three runs, the copy to the second never succeeds. *)
Lemma distribution_reports_every_node_two :
  (0 < 5 /\ NoDup ["hpc-1"; "hpc-2"]) /\
  exists results,
    distribute_scripts_parallel Cases.copies Scenario.last_first
                                ["hpc-1"; "hpc-2"] 5 3 2
    = Return results /\
    results !! "hpc-1" = Some true /\
    results !! "hpc-2" = Some false /\
    results !! "hpc-3" = None.
Proof.
  assert (NoDup ["hpc-1"; "hpc-2"]) as Hnd.
  { repeat (apply NoDup_cons; split; [|]); [| |apply NoDup_nil_2].
    - intros [?|?%elem_of_nil]%elem_of_cons; [discriminate | done].
    - apply not_elem_of_nil. }
  split; [split; [lia | exact Hnd]|].
  destruct (distribution_reports_every_node Cases.copies Scenario.last_first
              ["hpc-1"; "hpc-2"] 5 3 2 ltac:(lia) Hnd)
    as (results & Hrun & Hin & Hout).
  exists results. split; [exact Hrun|].
  split; [exact (Hin 0%nat "hpc-1" eq_refl)|].
  split; [exact (Hin 1%nat "hpc-2" eq_refl)|].
  apply Hout.
  intros [?|[?|?%elem_of_nil]%elem_of_cons]%elem_of_cons; [discriminate..|done].
Defined.

End RemoteProps.
